(** * CefFrameHostImpl: the browser-side frame handle of libcef

    A shallow embedding of [libcef/browser/frame_host_impl.cc].  The handle's
    member variables become a record, every member function a function on a
    [World] (the handle, the calls it has made on its collaborators so far,
    and the tasks it has posted to the UI thread).  A failed [CHECK] or a
    null dereference is the result [None]; a [DCHECK] is no part of the
    behaviour.  The state lock is not modelled: each member function runs to
    its end before the next starts.

    Left out are the member functions that neither write the handle nor end
    in [SendToRenderFrame] or in a call on the browser: [GetParent],
    [GetBrowser], [CreateURLRequest], [GetV8Context] and [VisitDOM].
    [LoadRequest(CefRefPtr<CefRequest>)] is [LoadRequest] at the parameters
    read off the request. *)

From Stdlib Require Import ZArith List String Bool Lia.
Import ListNotations.

Local Open Scope string_scope.
Local Open Scope list_scope.
Local Open Scope Z_scope.

Set Implicit Arguments.

(** ** Types of the collaborators *)

(** [GURL], seen through its [spec()]. *)
Record GURL := mkGURL { spec : string }.

(** [content::Referrer]. *)
Record Referrer := mkReferrer { referrer_url : GURL; referrer_policy : Z }.

(** [content::RenderFrameHost], as far as this file reads it.  Two hosts are
    in the same [RenderProcessHost] when their [GetProcess_GetID] agree (a
    process host and its id determine each other).  The field
    [FrameTreeNode_unique_name] is what
    [FrameTreeNode::GloballyFindByID(GetFrameTreeNodeId())] finds: [None] for
    no node, otherwise the node's [unique_name()]. *)
#[warnings="-register-all"]
Inductive RenderFrameHost := mkRenderFrameHost {
  GetProcess_GetID : Z;
  GetRoutingID : Z;
  GetParent : option RenderFrameHost;
  GetRemoteInterfaces : bool;
  GetLastCommittedURL : GURL;
  GetFrameName : string;
  FrameTreeNode_unique_name : option string
}.

(** [CefClient], [CefBrowserHostBase] and [CefBrowserInfo]: what the handle
    asks of them. *)
Record CefClient := mkCefClient { GetDragHandler : bool }.
Record CefBrowserHostBase := mkBrowser { GetClient : option CefClient }.
Record CefBrowserInfo := mkBrowserInfo { browser : option CefBrowserHostBase }.

(** [cef::mojom::RequestParams]; the fields this file writes. *)
Record RequestParams := mkRequestParams {
  params_url : GURL;
  params_referrer : option Referrer;
  params_headers : string
}.

Inductive WindowOpenDisposition := CURRENT_TAB.

(** [content::OpenURLParams]. *)
Record OpenURLParams := mkOpenURLParams {
  open_url : GURL;
  open_referrer : Referrer;
  open_disposition : WindowOpenDisposition;
  open_transition : Z;
  is_renderer_initiated : bool;
  extra_headers : string
}.

(** [CefProcessMessage]. *)
Record CefProcessMessage := mkMessage {
  message_IsValid : bool;
  message_GetName : string;
  message_ArgumentList : list string
}.

Inductive CefProcessId := PID_BROWSER | PID_RENDERER.
Inductive FocusSource := FOCUS_SOURCE_NAVIGATION | FOCUS_SOURCE_SYSTEM.

(** The two response callbacks bound in this file. *)
Inductive ResponseCallback :=
| ViewTextCallback
| StringVisitCallback (visitor : nat).

Record CefRect := mkRect { rect_x : Z; rect_y : Z; rect_width : Z; rect_height : Z }.
Record DraggableRegionEntry := mkEntry { bounds : CefRect; draggable : bool }.
Record CefDraggableRegion := mkRegion { region_bounds : CefRect; region_draggable : bool }.

(** ** Actions and observable calls *)

(** [RenderFrameAction]: a once-callback that, run against the peer, makes
    one call of the [cef::mojom::RenderFrame] interface.  Each constructor is
    one of the lambdas bound in this file together with its bound arguments. *)
Inductive RenderFrameAction :=
| ActSendCommand (command : string)
| ActSendCommandWithResponse (command : string) (response_callback : ResponseCallback)
| ActSendJavaScript (jsCode scriptUrl : string) (startLine : Z)
| ActLoadRequest (params : RequestParams)
| ActSendMessage (message : CefProcessMessage)
| ActMoveOrResizeStarted
| ActDidStopLoading.

(** The calls the handle makes on its collaborators, in the order made. *)
Inductive Event :=
| ToRenderFrame (action : RenderFrameAction)
| Browser_LoadMainFrameURL (params : OpenURLParams)
| Browser_OnSetFocus (source : FocusSource)
| Browser_OnDidFinishLoad (validated_url : GURL) (http_status_code : Z)
| Client_OnProcessMessageReceived (name : string) (arguments : list string)
| DragHandler_OnDraggableRegionsChanged (regions : list CefDraggableRegion)
| Host_ExecuteJavaScriptWithUserGestureForTests (javascript : string).

(** The thread a member function is called on: [CEF_CURRENTLY_ON_UIT()]. *)
Inductive ThreadId := CEF_UIT | CEF_NOT_UIT.

Definition CURRENTLY_ON_UIT (t : ThreadId) : bool :=
  match t with CEF_UIT => true | CEF_NOT_UIT => false end.

(** What [CEF_POST_TASK(CEF_UIT, ...)] is given in this file. *)
Inductive Task :=
| TaskSendToRenderFrame (action : RenderFrameAction)
| TaskExecuteJavaScriptWithUserGestureForTests (javascript : string).

(** ** The handle *)

Record CefFrameHostImpl := mkFrameHost {
  is_main_frame_ : bool;
  frame_id_ : Z;
  browser_info_ : option CefBrowserInfo;
  is_focused_ : bool;
  url_ : string;
  name_ : string;
  parent_frame_id_ : Z;
  queued_actions_ : list RenderFrameAction;
  render_frame_ : bool;
  render_frame_host_ : option RenderFrameHost;
  is_attached_ : bool
}.

(** [render_frame_] is the [mojo::Remote]; the field holds [is_bound()],
    which is also its conversion to [bool].  [queued_actions_] is the
    [std::queue]: [push] appends at the back, [front] and [pop] work on the
    head. *)

Record World := mkWorld {
  self : CefFrameHostImpl;
  trace : list Event;
  ui_tasks : list Task
}.

Definition kMainFrameId : Z := -1.
Definition kFocusedFrameId : Z := -2.
Definition kUnspecifiedFrameId : Z := -3.
Definition kInvalidFrameId : Z := -4.

(** [ui::PAGE_TRANSITION_TYPED | ui::PAGE_TRANSITION_FROM_ADDRESS_BAR]. *)
Definition kPageTransitionExplicit : Z := Z.lor 1 33554432.

(** *** Field updates *)

Definition set_frame (f : CefFrameHostImpl) (w : World) : World :=
  mkWorld f (trace w) (ui_tasks w).

Definition emit (e : Event) (w : World) : World :=
  mkWorld (self w) (trace w ++ [e]) (ui_tasks w).

Definition CEF_POST_TASK (t : Task) (w : World) : World :=
  mkWorld (self w) (trace w) (ui_tasks w ++ [t]).

Definition with_browser_info (b : option CefBrowserInfo) (f : CefFrameHostImpl) :=
  mkFrameHost (is_main_frame_ f) (frame_id_ f) b (is_focused_ f) (url_ f)
    (name_ f) (parent_frame_id_ f) (queued_actions_ f) (render_frame_ f)
    (render_frame_host_ f) (is_attached_ f).

Definition with_is_focused (b : bool) (f : CefFrameHostImpl) :=
  mkFrameHost (is_main_frame_ f) (frame_id_ f) (browser_info_ f) b (url_ f)
    (name_ f) (parent_frame_id_ f) (queued_actions_ f) (render_frame_ f)
    (render_frame_host_ f) (is_attached_ f).

Definition with_queued_actions (q : list RenderFrameAction) (f : CefFrameHostImpl) :=
  mkFrameHost (is_main_frame_ f) (frame_id_ f) (browser_info_ f) (is_focused_ f)
    (url_ f) (name_ f) (parent_frame_id_ f) q (render_frame_ f)
    (render_frame_host_ f) (is_attached_ f).

Definition with_render_frame (b : bool) (f : CefFrameHostImpl) :=
  mkFrameHost (is_main_frame_ f) (frame_id_ f) (browser_info_ f) (is_focused_ f)
    (url_ f) (name_ f) (parent_frame_id_ f) (queued_actions_ f) b
    (render_frame_host_ f) (is_attached_ f).

Definition with_render_frame_host (h : option RenderFrameHost) (f : CefFrameHostImpl) :=
  mkFrameHost (is_main_frame_ f) (frame_id_ f) (browser_info_ f) (is_focused_ f)
    (url_ f) (name_ f) (parent_frame_id_ f) (queued_actions_ f) (render_frame_ f)
    h (is_attached_ f).

Definition with_is_attached (b : bool) (f : CefFrameHostImpl) :=
  mkFrameHost (is_main_frame_ f) (frame_id_ f) (browser_info_ f) (is_focused_ f)
    (url_ f) (name_ f) (parent_frame_id_ f) (queued_actions_ f) (render_frame_ f)
    (render_frame_host_ f) b.

Definition with_identity (id : Z) (url name : string) (f : CefFrameHostImpl) :=
  mkFrameHost (is_main_frame_ f) id (browser_info_ f) (is_focused_ f)
    url name (parent_frame_id_ f) (queued_actions_ f) (render_frame_ f)
    (render_frame_host_ f) (is_attached_ f).

Definition with_attributes (url name : string) (parent : Z) (f : CefFrameHostImpl) :=
  mkFrameHost (is_main_frame_ f) (frame_id_ f) (browser_info_ f) (is_focused_ f)
    url name parent (queued_actions_ f) (render_frame_ f)
    (render_frame_host_ f) (is_attached_ f).

(** ** Helpers of the repository that this file only calls *)

(** [frame_util::MakeFrameId] and [url_util::MakeGURL], [url_util::FixupGURL]
    are defined in other files of libcef; the model takes them as given.
    [FixupGURL] returns its [bool] together with the url it leaves in its
    reference argument. *)
Class Helpers := {
  frame_util_MakeFrameId : Z -> Z -> Z;
  url_util_MakeGURL : string -> bool -> GURL;
  url_util_FixupGURL : GURL -> bool * GURL
}.

(** ** Member functions *)

Section MemberFunctions.
Context {helpers : Helpers}.

(** [MakeFrameId(const content::RenderFrameHost* host)]; the host is
    dereferenced, so a null host has no result. *)
Definition MakeFrameId (host : option RenderFrameHost) : option Z :=
  match host with
  | Some h => Some (frame_util_MakeFrameId (GetProcess_GetID h) (GetRoutingID h))
  | None => None
  end.

(** [SetRenderFrameHost]; called on the UI thread.  [CHECK(browser_info_)]
    is fatal when the handle is detached. *)
Definition SetRenderFrameHost (host : RenderFrameHost) (w : World) : option World :=
  let f := self w in
  match browser_info_ f with
  | None => None
  | Some _ =>
      let f := with_render_frame false f in
      let f := with_render_frame_host (Some host) f in
      let f := with_identity
                 (frame_util_MakeFrameId (GetProcess_GetID host) (GetRoutingID host))
                 (spec (GetLastCommittedURL host)) (GetFrameName host) f in
      Some (set_frame f w)
  end.

(** The pre-binding constructor.  The members without an initializer in the
    constructor start as a handle that has seen nothing: no frame host, an
    unbound remote, an empty queue, not attached. *)
Definition CefFrameHostImpl_new (browser_info : option CefBrowserInfo)
    (is_main_frame : bool) (parent_frame_id : Z) : World :=
  mkWorld
    (mkFrameHost is_main_frame kInvalidFrameId browser_info is_main_frame
       "" "" parent_frame_id [] false None false)
    [] [].

(** The bound constructor: the main-frame flag and the parent id are read
    off the host, then [SetRenderFrameHost] binds it. *)
Definition CefFrameHostImpl_new_bound (browser_info : option CefBrowserInfo)
    (render_frame_host : RenderFrameHost) : option World :=
  let is_main_frame :=
    match GetParent render_frame_host with None => true | Some _ => false end in
  match (if is_main_frame then Some kInvalidFrameId
         else MakeFrameId (GetParent render_frame_host)) with
  | None => None
  | Some parent_frame_id =>
      SetRenderFrameHost render_frame_host
        (CefFrameHostImpl_new browser_info is_main_frame parent_frame_id)
  end.

(** *** Getters *)

Definition GetBrowserHostBase (f : CefFrameHostImpl) : option CefBrowserHostBase :=
  match browser_info_ f with
  | Some info => browser info
  | None => None
  end.

Definition IsValid (f : CefFrameHostImpl) : bool :=
  match GetBrowserHostBase f with Some _ => true | None => false end.

Definition IsMain (f : CefFrameHostImpl) : bool := is_main_frame_ f.
Definition IsFocused (f : CefFrameHostImpl) : bool := is_focused_ f.
Definition GetName (f : CefFrameHostImpl) : string := name_ f.
Definition GetIdentifier (f : CefFrameHostImpl) : Z := frame_id_ f.
Definition GetURL (f : CefFrameHostImpl) : string := url_ f.

Definition GetFrameId (f : CefFrameHostImpl) : Z :=
  if is_main_frame_ f then kMainFrameId else frame_id_ f.

Definition GetRenderFrameHost (f : CefFrameHostImpl) : option RenderFrameHost :=
  render_frame_host_ f.

(** *** The dispatch core *)

(** [GetRenderFrame]: binds the remote on first use when the host offers
    remote interfaces.  The result is the handle after the call; the
    reference returned is its [render_frame_]. *)
Definition GetRenderFrame (f : CefFrameHostImpl) : CefFrameHostImpl :=
  if negb (render_frame_ f)
     && match render_frame_host_ f with
        | Some h => GetRemoteInterfaces h
        | None => false
        end
  then with_render_frame true f
  else f.

(** [std::move(action).Run(render_frame)]. *)
Definition Run (action : RenderFrameAction) (w : World) : World :=
  emit (ToRenderFrame action) w.

Definition SendToRenderFrame (t : ThreadId) (action : RenderFrameAction)
    (w : World) : World :=
  if negb (CURRENTLY_ON_UIT t) then
    CEF_POST_TASK (TaskSendToRenderFrame action) w
  else
    match render_frame_host_ (self w) with
    | None => w
    | Some _ =>
        if negb (is_attached_ (self w)) then
          set_frame (with_queued_actions (queued_actions_ (self w) ++ [action]) (self w)) w
        else
          let w := set_frame (GetRenderFrame (self w)) w in
          if negb (render_frame_ (self w)) then w
          else Run action w
    end.

(** The loop of [FrameAttached]: while the queue is not empty, run its front
    when the remote is bound, then pop it.  The recursion is on the queue
    that is left. *)
Fixpoint drain_queued_actions (queue : list RenderFrameAction) (w : World) : World :=
  match queue with
  | [] => w
  | front :: rest =>
      let w := if render_frame_ (self w) then Run front w else w in
      let w := set_frame (with_queued_actions rest (self w)) w in
      drain_queued_actions rest w
  end.

Definition FrameAttached (w : World) : World :=
  if negb (is_attached_ (self w)) then
    let w := set_frame (with_is_attached true (self w)) w in
    let w := set_frame (GetRenderFrame (self w)) w in
    drain_queued_actions (queued_actions_ (self w)) w
  else w.

(** The loop of [Detach]: pop until empty. *)
Fixpoint pop_all (queue : list RenderFrameAction) : list RenderFrameAction :=
  match queue with
  | [] => []
  | _ :: rest => pop_all rest
  end.

(** [Detach]; called on the UI thread. *)
Definition Detach (w : World) : World :=
  let f := with_browser_info None (self w) in
  let f := with_queued_actions (pop_all (queued_actions_ f)) f in
  let f := with_render_frame false f in
  let f := with_render_frame_host None f in
  set_frame f w.

(** *** Operations built on the dispatch core *)

Definition SendCommand (t : ThreadId) (command : string) (w : World) : World :=
  SendToRenderFrame t (ActSendCommand command) w.

Definition SendCommandWithResponse (t : ThreadId) (command : string)
    (response_callback : ResponseCallback) (w : World) : World :=
  SendToRenderFrame t (ActSendCommandWithResponse command response_callback) w.

Definition Undo t := SendCommand t "Undo".
Definition Redo t := SendCommand t "Redo".
Definition Cut t := SendCommand t "Cut".
Definition Copy t := SendCommand t "Copy".
Definition Paste t := SendCommand t "Paste".
Definition Delete t := SendCommand t "Delete".
Definition SelectAll t := SendCommand t "SelectAll".
Definition ViewSource t := SendCommandWithResponse t "GetSource" ViewTextCallback.
Definition GetSource t (visitor : nat) :=
  SendCommandWithResponse t "GetSource" (StringVisitCallback visitor).
Definition GetText t (visitor : nat) :=
  SendCommandWithResponse t "GetText" (StringVisitCallback visitor).

Definition SendJavaScript (t : ThreadId) (jsCode scriptUrl : string)
    (startLine : Z) (w : World) : World :=
  if String.eqb jsCode "" then w
  else
    let startLine := if startLine <=? 0 then 1 else startLine in
    SendToRenderFrame t (ActSendJavaScript jsCode scriptUrl startLine) w.

Definition ExecuteJavaScript := SendJavaScript.

Definition SendProcessMessage (t : ThreadId) (target_process : CefProcessId)
    (message : option CefProcessMessage) (w : World) : World :=
  match message with
  | None => w
  | Some m =>
      if negb (message_IsValid m) then w
      else SendToRenderFrame t (ActSendMessage m) w
  end.

Definition NotifyMoveOrResizeStarted (t : ThreadId) (w : World) : World :=
  SendToRenderFrame t ActMoveOrResizeStarted w.

(** [LoadRequest(cef::mojom::RequestParamsPtr)]. *)
Definition LoadRequest (t : ThreadId) (params : RequestParams) (w : World) : World :=
  let (ok, fixed) := url_util_FixupGURL (params_url params) in
  if negb ok then w
  else
    let params := mkRequestParams fixed (params_referrer params) (params_headers params) in
    let w := SendToRenderFrame t (ActLoadRequest params) w in
    match GetBrowserHostBase (self w) with
    | Some _ => emit (Browser_OnSetFocus FOCUS_SOURCE_NAVIGATION) w
    | None => w
    end.

Definition LoadURLWithExtras (t : ThreadId) (url : string) (referrer : Referrer)
    (transition : Z) (headers : string) (w : World) : World :=
  let frame_id := GetFrameId (self w) in
  if frame_id <? kMainFrameId then w
  else
    let gurl := url_util_MakeGURL url false in
    if frame_id =? kMainFrameId then
      match GetBrowserHostBase (self w) with
      | Some _ =>
          emit (Browser_LoadMainFrameURL
                  (mkOpenURLParams gurl referrer CURRENT_TAB transition false headers)) w
      | None => w
      end
    else
      LoadRequest t (mkRequestParams gurl (Some referrer) headers) w.

(** [content::Referrer()]: an empty url and the default policy. *)
Definition Referrer_default : Referrer := mkReferrer (mkGURL "") 0.

Definition LoadURL (t : ThreadId) (url : string) (w : World) : World :=
  LoadURLWithExtras t url Referrer_default kPageTransitionExplicit "" w.

(** [MaybeSendDidStopLoading]; [GetRenderFrameHost] puts it on the UI thread. *)
Definition MaybeSendDidStopLoading (w : World) : World :=
  match GetRenderFrameHost (self w) with
  | None => w
  | Some rfh =>
      match GetParent rfh with
      | Some rfh_parent =>
          if GetProcess_GetID rfh_parent =? GetProcess_GetID rfh then w
          else SendToRenderFrame CEF_UIT ActDidStopLoading w
      | None => SendToRenderFrame CEF_UIT ActDidStopLoading w
      end
  end.

(** *** Notifications from the renderer and the remaining setters *)

Definition DidFinishFrameLoad (validated_url : GURL) (http_status_code : Z)
    (w : World) : World :=
  match GetBrowserHostBase (self w) with
  | Some _ => emit (Browser_OnDidFinishLoad validated_url http_status_code) w
  | None => w
  end.

Definition SendMessage (name : string) (arguments : list string) (w : World) : World :=
  match GetBrowserHostBase (self w) with
  | Some b =>
      match GetClient b with
      | Some _ => emit (Client_OnProcessMessageReceived name arguments) w
      | None => w
      end
  | None => w
  end.

Definition UpdateDraggableRegions (regions : option (list DraggableRegionEntry))
    (w : World) : World :=
  match GetBrowserHostBase (self w) with
  | None => w
  | Some b =>
      let handler :=
        match GetClient b with
        | Some client => GetDragHandler client
        | None => false
        end in
      if negb handler then w
      else
        let draggable_regions :=
          match regions with
          | Some rs => map (fun region => mkRegion (bounds region) (draggable region)) rs
          | None => []
          end in
        emit (DragHandler_OnDraggableRegionsChanged draggable_regions) w
  end.

Definition SetFocused (focused : bool) (w : World) : World :=
  set_frame (with_is_focused focused (self w)) w.

(** [RefreshAttributes]; called on the UI thread.  For a handle that is not
    the main frame the parent of the host is dereferenced. *)
Definition RefreshAttributes (w : World) : option World :=
  let f := self w in
  match render_frame_host_ f with
  | None => Some w
  | Some h =>
      let url := spec (GetLastCommittedURL h) in
      let name := GetFrameName h in
      let name :=
        if String.eqb name "" then
          match FrameTreeNode_unique_name h with
          | Some unique_name => unique_name
          | None => name
          end
        else name in
      if negb (is_main_frame_ f) then
        match MakeFrameId (GetParent h) with
        | Some parent => Some (set_frame (with_attributes url name parent f) w)
        | None => None
        end
      else Some (set_frame (with_attributes url name (parent_frame_id_ f) f) w)
  end.

Definition ExecuteJavaScriptWithUserGestureForTests (t : ThreadId)
    (javascript : string) (w : World) : World :=
  if negb (CURRENTLY_ON_UIT t) then
    CEF_POST_TASK (TaskExecuteJavaScriptWithUserGestureForTests javascript) w
  else
    match GetRenderFrameHost (self w) with
    | Some _ => emit (Host_ExecuteJavaScriptWithUserGestureForTests javascript) w
    | None => w
    end.

(** The UI thread takes the oldest posted task and runs it. *)
Definition RunPostedTask (w : World) : World :=
  match ui_tasks w with
  | [] => w
  | task :: rest =>
      let w := mkWorld (self w) (trace w) rest in
      match task with
      | TaskSendToRenderFrame action => SendToRenderFrame CEF_UIT action w
      | TaskExecuteJavaScriptWithUserGestureForTests javascript =>
          ExecuteJavaScriptWithUserGestureForTests CEF_UIT javascript w
      end
  end.

End MemberFunctions.

(** ** The handle as a transition system *)

Section Transitions.
Context {helpers : Helpers}.

(** One call of a member function that changes the handle or reaches a
    collaborator.  The editing commands are [OpSendCommand] with their fixed
    names, [LoadURL] is [OpLoadURLWithExtras] with its fixed arguments. *)
Inductive Op :=
| OpSetRenderFrameHost (host : RenderFrameHost)
| OpSetFocused (focused : bool)
| OpRefreshAttributes
| OpDetach
| OpFrameAttached
| OpSendToRenderFrame (t : ThreadId) (action : RenderFrameAction)
| OpSendCommand (t : ThreadId) (command : string)
| OpSendCommandWithResponse (t : ThreadId) (command : string) (cb : ResponseCallback)
| OpSendJavaScript (t : ThreadId) (jsCode scriptUrl : string) (startLine : Z)
| OpSendProcessMessage (t : ThreadId) (target : CefProcessId) (message : option CefProcessMessage)
| OpNotifyMoveOrResizeStarted (t : ThreadId)
| OpLoadRequest (t : ThreadId) (params : RequestParams)
| OpLoadURLWithExtras (t : ThreadId) (url : string) (referrer : Referrer)
    (transition : Z) (headers : string)
| OpMaybeSendDidStopLoading
| OpDidFinishFrameLoad (validated_url : GURL) (http_status_code : Z)
| OpSendMessage (name : string) (arguments : list string)
| OpUpdateDraggableRegions (regions : option (list DraggableRegionEntry))
| OpExecuteJavaScriptWithUserGestureForTests (t : ThreadId) (javascript : string)
| OpRunPostedTask.

Definition step (op : Op) (w : World) : option World :=
  match op with
  | OpSetRenderFrameHost host => SetRenderFrameHost host w
  | OpSetFocused focused => Some (SetFocused focused w)
  | OpRefreshAttributes => RefreshAttributes w
  | OpDetach => Some (Detach w)
  | OpFrameAttached => Some (FrameAttached w)
  | OpSendToRenderFrame t action => Some (SendToRenderFrame t action w)
  | OpSendCommand t command => Some (SendCommand t command w)
  | OpSendCommandWithResponse t command cb => Some (SendCommandWithResponse t command cb w)
  | OpSendJavaScript t jsCode scriptUrl startLine =>
      Some (SendJavaScript t jsCode scriptUrl startLine w)
  | OpSendProcessMessage t target message => Some (SendProcessMessage t target message w)
  | OpNotifyMoveOrResizeStarted t => Some (NotifyMoveOrResizeStarted t w)
  | OpLoadRequest t params => Some (LoadRequest t params w)
  | OpLoadURLWithExtras t url referrer transition headers =>
      Some (LoadURLWithExtras t url referrer transition headers w)
  | OpMaybeSendDidStopLoading => Some (MaybeSendDidStopLoading w)
  | OpDidFinishFrameLoad validated_url http_status_code =>
      Some (DidFinishFrameLoad validated_url http_status_code w)
  | OpSendMessage name arguments => Some (SendMessage name arguments w)
  | OpUpdateDraggableRegions regions => Some (UpdateDraggableRegions regions w)
  | OpExecuteJavaScriptWithUserGestureForTests t javascript =>
      Some (ExecuteJavaScriptWithUserGestureForTests t javascript w)
  | OpRunPostedTask => Some (RunPostedTask w)
  end.

Fixpoint run (ops : list Op) (w : World) : option World :=
  match ops with
  | [] => Some w
  | op :: rest =>
      match step op w with
      | Some w' => run rest w'
      | None => None
      end
  end.

(** [SendToRenderFrame] and the member functions that end in it. *)
Definition peer_directed (op : Op) : bool :=
  match op with
  | OpSendToRenderFrame _ _ | OpSendCommand _ _ | OpSendCommandWithResponse _ _ _
  | OpSendJavaScript _ _ _ _ | OpSendProcessMessage _ _ _
  | OpNotifyMoveOrResizeStarted _ | OpLoadRequest _ _
  | OpLoadURLWithExtras _ _ _ _ _ | OpMaybeSendDidStopLoading => true
  | _ => false
  end.

(** The worlds a handle can be in: built by a constructor, then any calls. *)
Inductive reachable : World -> Prop :=
| reachable_new : forall browser_info is_main_frame parent_frame_id,
    reachable (CefFrameHostImpl_new browser_info is_main_frame parent_frame_id)
| reachable_new_bound : forall browser_info host w,
    CefFrameHostImpl_new_bound browser_info host = Some w -> reachable w
| reachable_step : forall op w w',
    reachable w -> step op w = Some w' -> reachable w'.

(** A run of calls to [SendToRenderFrame] made on the UI thread, in order. *)
Fixpoint SendAllToRenderFrame (actions : list RenderFrameAction) (w : World) : World :=
  match actions with
  | [] => w
  | action :: rest => SendAllToRenderFrame rest (SendToRenderFrame CEF_UIT action w)
  end.


End Transitions.

(** ** Invariants *)

(** How one call may change the queue: it keeps [is_attached_] and either
    keeps the queue or, on a handle that is not attached, appends one action;
    or it leaves the queue empty. *)
Definition queue_step (w w' : World) : Prop :=
  (is_attached_ (self w') = is_attached_ (self w) /\
   (queued_actions_ (self w') = queued_actions_ (self w) \/
    (is_attached_ (self w) = false /\
     exists action, queued_actions_ (self w') = queued_actions_ (self w) ++ [action]))) \/
  queued_actions_ (self w') = [].

Definition queue_invariant (w : World) : Prop :=
  is_attached_ (self w) = true -> queued_actions_ (self w) = [].

(** What [Detach] establishes. *)
Definition detached (w : World) : Prop :=
  browser_info_ (self w) = None /\
  render_frame_host_ (self w) = None /\
  queued_actions_ (self w) = [].

Ltac break_step H :=
  repeat match type of H with
         | context [match ?x with _ => _ end] => destruct x eqn:?; simpl in H
         end.

Ltac unfold_members H :=
  unfold SetRenderFrameHost, SetFocused, RefreshAttributes, Detach,
    SendCommand, SendCommandWithResponse, SendJavaScript, SendProcessMessage,
    NotifyMoveOrResizeStarted, LoadURLWithExtras, LoadRequest,
    MaybeSendDidStopLoading, DidFinishFrameLoad, SendMessage,
    UpdateDraggableRegions, RunPostedTask,
    ExecuteJavaScriptWithUserGestureForTests, SendToRenderFrame, GetRenderFrame, GetBrowserHostBase,
    GetRenderFrameHost, MakeFrameId in H.

(** ** Data for the worked examples *)

Module Examples.

(** An implementation of the helpers to run the model with: ids packed as
    process id above routing id, urls taken as written, the empty url
    refused by the fixup. *)
Definition example_helpers : Helpers := {|
  frame_util_MakeFrameId := fun p r => Z.lor (Z.shiftl p 32) r;
  url_util_MakeGURL := fun url _ => mkGURL url;
  url_util_FixupGURL := fun g => (negb (String.eqb (spec g) ""), g)
|}.

Definition live_info : CefBrowserInfo :=
  mkBrowserInfo (Some (mkBrowser (Some (mkCefClient true)))).

Definition main_host : RenderFrameHost :=
  mkRenderFrameHost 7 1 None true (mkGURL "https://example.com/") "" (Some "main").

(** A child of [main_host] in the same renderer process. *)
Definition child_host : RenderFrameHost :=
  mkRenderFrameHost 7 2 (Some main_host) true (mkGURL "https://example.com/a") "a" None.

(** A child of [main_host] in another renderer process. *)
Definition oop_child_host : RenderFrameHost :=
  mkRenderFrameHost 9 3 (Some main_host) true (mkGURL "https://other.test/") "b" None.

(** A host that offers no remote interfaces. *)
Definition mute_host : RenderFrameHost :=
  mkRenderFrameHost 7 4 (Some main_host) false (mkGURL "about:blank") "" None.

Definition main_placeholder : World :=
  CefFrameHostImpl_new (Some live_info) true kInvalidFrameId.

Definition bound_main : World :=
  mkWorld
    (mkFrameHost true (Z.lor (Z.shiftl 7 32) 1) (Some live_info) true
       "https://example.com/" "" kInvalidFrameId [] false (Some main_host) false)
    [] [].

Definition bound_child : World :=
  mkWorld
    (mkFrameHost false (Z.lor (Z.shiftl 7 32) 2) (Some live_info) false
       "https://example.com/a" "a" (Z.lor (Z.shiftl 7 32) 1) [] false
       (Some child_host) false)
    [] [].

Definition bound_oop_child : World :=
  mkWorld
    (mkFrameHost false (Z.lor (Z.shiftl 9 32) 3) (Some live_info) false
       "https://other.test/" "b" (Z.lor (Z.shiftl 7 32) 1) [] false
       (Some oop_child_host) false)
    [] [].

(** An attached handle whose host offers no remote interfaces. *)
Definition attached_mute : World :=
  mkWorld
    (mkFrameHost false (Z.lor (Z.shiftl 7 32) 4) (Some live_info) false
       "about:blank" "" (Z.lor (Z.shiftl 7 32) 1) [] false
       (Some mute_host) true)
    [] [].

Definition three_actions : list RenderFrameAction :=
  [ActSendCommand "Copy"; ActSendJavaScript "f()" "about:blank" 1; ActSendCommand "Paste"].

(** [bound_child] with three actions waiting for attachment. *)
Definition queued_child : World :=
  SendAllToRenderFrame three_actions bound_child.

(** Calls made on a handle after it has been detached. *)
Definition calls_after_detach : list Op :=
  [OpSendCommand CEF_UIT "Undo";
   OpFrameAttached;
   OpSendJavaScript CEF_NOT_UIT "f()" "about:blank" 0;
   OpRunPostedTask;
   OpLoadURLWithExtras CEF_UIT "https://example.com" (mkReferrer (mkGURL "") 0)
     kPageTransitionExplicit "";
   OpDidFinishFrameLoad (mkGURL "https://example.com/") 200;
   OpRefreshAttributes;
   OpMaybeSendDidStopLoading].

End Examples.

(** ** Further member functions and invariants *)

(** [GetParent] of the handle: no parent for the main frame or without a
    parent id; otherwise what the browser's [GetFrame] finds for the parent
    id, when there still is a browser.  [GetFrame] belongs to
    [CefBrowserHostBase] and is taken as given. *)
Definition CefFrame_GetParent {Frame : Type}
    (GetFrame : CefBrowserHostBase -> Z -> option Frame)
    (f : CefFrameHostImpl) : option Frame :=
  if is_main_frame_ f || (parent_frame_id_ f =? kInvalidFrameId) then None
  else
    match GetBrowserHostBase f with
    | Some browser => GetFrame browser (parent_frame_id_ f)
    | None => None
    end.

(** [GetBrowser]. *)
Definition GetBrowser (f : CefFrameHostImpl) : option CefBrowserHostBase :=
  GetBrowserHostBase f.

Definition is_SetRenderFrameHost (op : Op) : bool :=
  match op with OpSetRenderFrameHost _ => true | _ => false end.

Definition is_SetFocused (op : Op) : bool :=
  match op with OpSetFocused _ => true | _ => false end.

Definition is_ToRenderFrame (e : Event) : bool :=
  match e with ToRenderFrame _ => true | _ => false end.

(** No call has reached the peer. *)
Definition peer_untouched (w : World) : Prop :=
  Forall (fun e => is_ToRenderFrame e = false) (trace w).

(** A handle that has had no frame host so far. *)
Definition never_bound (w : World) : Prop :=
  render_frame_host_ (self w) = None /\
  frame_id_ (self w) = kInvalidFrameId /\
  queued_actions_ (self w) = [] /\
  render_frame_ (self w) = false /\
  peer_untouched w.

(** What holds of the frame host, the remote and the queue together. *)
Definition binding_invariant {helpers : Helpers} (w : World) : Prop :=
  (forall h, render_frame_host_ (self w) = Some h ->
     browser_info_ (self w) <> None /\
     frame_id_ (self w) = frame_util_MakeFrameId (GetProcess_GetID h) (GetRoutingID h)) /\
  (queued_actions_ (self w) <> [] -> render_frame_host_ (self w) <> None) /\
  (render_frame_ (self w) = true ->
     render_frame_host_ (self w) <> None /\ is_attached_ (self w) = true).

(** Nothing reaches the peer of a handle that is not attached. *)
Definition delivery_invariant (w : World) : Prop :=
  is_attached_ (self w) = false -> peer_untouched w.

(** What a notification from the renderer may do to the world [w]: the
    handle and the posted tasks stay, and at most one call is made, not on
    the peer. *)
Definition notifies_only (w w' : World) : Prop :=
  self w' = self w /\ ui_tasks w' = ui_tasks w /\
  exists events,
    trace w' = trace w ++ events /\
    (List.length events <= 1)%nat /\
    Forall (fun e => is_ToRenderFrame e = false) events.

(** Case analysis on one call: [closed] is the closed form of
    [FrameAttached]. *)
Ltac analyse_step Hstep closed :=
  match type of Hstep with
  | step ?op ?w = Some _ =>
      destruct op; simpl in Hstep; try rewrite closed in Hstep;
      destruct w as [[m i b fo u n p q [|] rfh [|]] tr tasks];
      unfold_members Hstep; simpl in Hstep; break_step Hstep; try discriminate;
      injection Hstep as <-
  end.

Module MoreExamples.

Definition host_without_info : World :=
  CefFrameHostImpl_new None false 12.

Definition child_placeholder : World :=
  CefFrameHostImpl_new (Some Examples.live_info) false 30064771073.

(** [queued_child] after its frame host was replaced by one in another
    process. *)
Definition rebound_queued_child : World :=
  mkWorld
    (mkFrameHost false (Z.lor (Z.shiftl 9 32) 3) (Some Examples.live_info) false
       "https://other.test/" "b" (Z.lor (Z.shiftl 7 32) 1) Examples.three_actions false
       (Some Examples.oop_child_host) false)
    [] [].

(** A handle bound to [mute_host], not attached yet, with three actions
    waiting. *)
Definition queued_mute : World :=
  mkWorld
    (mkFrameHost false (Z.lor (Z.shiftl 7 32) 4) (Some Examples.live_info) false
       "about:blank" "" (Z.lor (Z.shiftl 7 32) 1) Examples.three_actions false
       (Some Examples.mute_host) false)
    [] [].

(** [bound_child], attached. *)
Definition attached_child : World := FrameAttached Examples.bound_child.

Definition calls_without_binding : list Op :=
  [OpSendCommand CEF_UIT "Undo";
   OpFrameAttached;
   OpSendJavaScript CEF_NOT_UIT "f()" "about:blank" 0;
   OpRunPostedTask;
   OpLoadRequest CEF_UIT (mkRequestParams (mkGURL "https://example.com") None "");
   OpDidFinishFrameLoad (mkGURL "https://example.com/") 200;
   OpRefreshAttributes;
   OpSetFocused true;
   OpMaybeSendDidStopLoading].

Definition calls_without_focus : list Op :=
  [OpLoadRequest CEF_UIT (mkRequestParams (mkGURL "https://example.com") None "");
   OpFrameAttached;
   OpSetRenderFrameHost Examples.oop_child_host;
   OpDetach].

Definition two_regions : list DraggableRegionEntry :=
  [mkEntry (mkRect 0 0 100 20) true; mkEntry (mkRect 80 0 20 20) false].

Definition valid_message : CefProcessMessage := mkMessage true "ping" ["1"; "2"].
Definition invalid_message : CefProcessMessage := mkMessage false "" [].

End MoreExamples.

(** ** The model on the examples *)

(** The example worlds are what the constructors and member functions
    produce. *)
Example bound_main_constructed :
  CefFrameHostImpl_new_bound (helpers := Examples.example_helpers)
    (Some Examples.live_info) Examples.main_host = Some Examples.bound_main.
Proof. reflexivity. Qed.

Example bound_child_constructed :
  CefFrameHostImpl_new_bound (helpers := Examples.example_helpers)
    (Some Examples.live_info) Examples.child_host = Some Examples.bound_child.
Proof. reflexivity. Qed.

Example bound_oop_child_constructed :
  CefFrameHostImpl_new_bound (helpers := Examples.example_helpers)
    (Some Examples.live_info) Examples.oop_child_host = Some Examples.bound_oop_child.
Proof. reflexivity. Qed.

Example attached_mute_constructed :
  option_map FrameAttached
    (CefFrameHostImpl_new_bound (helpers := Examples.example_helpers)
       (Some Examples.live_info) Examples.mute_host) = Some Examples.attached_mute.
Proof. reflexivity. Qed.

Example queued_child_waits :
  queued_actions_ (self Examples.queued_child) = Examples.three_actions /\
  trace Examples.queued_child = [].
Proof. split; reflexivity. Qed.

Example queued_child_attached :
  trace (FrameAttached Examples.queued_child) =
    [ToRenderFrame (ActSendCommand "Copy");
     ToRenderFrame (ActSendJavaScript "f()" "about:blank" 1);
     ToRenderFrame (ActSendCommand "Paste")] /\
  queued_actions_ (self (FrameAttached Examples.queued_child)) = [] /\
  render_frame_ (self (FrameAttached Examples.queued_child)) = true.
Proof. repeat split. Qed.

Example script_line_zero_on_attached_child :
  trace (SendJavaScript CEF_UIT "g()" "about:blank" 0 (FrameAttached Examples.bound_child)) =
    [ToRenderFrame (ActSendJavaScript "g()" "about:blank" 1)].
Proof. reflexivity. Qed.

Example subframe_navigation_on_attached_child :
  trace (LoadURL (helpers := Examples.example_helpers) CEF_UIT "https://example.com"
           (FrameAttached Examples.bound_child)) =
    [ToRenderFrame
       (ActLoadRequest
          (mkRequestParams (mkGURL "https://example.com") (Some Referrer_default) ""));
     Browser_OnSetFocus FOCUS_SOURCE_NAVIGATION].
Proof. reflexivity. Qed.

Example rebinding_after_Detach_fails :
  SetRenderFrameHost (helpers := Examples.example_helpers) Examples.main_host
    (Detach Examples.bound_main) = None.
Proof. reflexivity. Qed.

(** ** Properties of the dispatch core *)

Lemma pop_all_empty : forall queue, pop_all queue = [].
Proof. induction queue as [|front rest IH]; simpl; auto. Qed.

Lemma GetRenderFrame_bound_iff : forall f,
  render_frame_ (GetRenderFrame f) = true <->
  render_frame_ f = true \/
  exists h, render_frame_host_ f = Some h /\ GetRemoteInterfaces h = true.
Proof.
  intros [m i b fo u n p q rf rfh a]; unfold GetRenderFrame; simpl.
  destruct rf; simpl; [split; auto|].
  destruct rfh as [h|]; simpl.
  - destruct (GetRemoteInterfaces h) eqn:E; simpl; split.
    + intros _; right; exists h; auto.
    + reflexivity.
    + discriminate.
    + intros [H|(h' & Hh & Hr)]; [discriminate|].
      inversion Hh; subst; congruence.
  - split; [discriminate|].
    intros [H|(h' & Hh & _)]; discriminate.
Qed.

Lemma GetRenderFrame_idempotent : forall f,
  GetRenderFrame (GetRenderFrame f) = GetRenderFrame f.
Proof.
  intros [m i b fo u n p q rf rfh a]; unfold GetRenderFrame; simpl.
  destruct rf; simpl; auto.
  destruct rfh as [h|]; simpl; auto.
  destruct (GetRemoteInterfaces h) eqn:E; simpl; rewrite ?E; auto.
Qed.

Lemma GetRenderFrame_ignores_queue : forall queue f,
  render_frame_ (GetRenderFrame (with_queued_actions queue f)) =
  render_frame_ (GetRenderFrame f).
Proof.
  intros queue [m i b fo u n p q rf rfh a]; unfold GetRenderFrame; simpl.
  destruct (negb rf && _); reflexivity.
Qed.

Lemma GetRenderFrame_keeps_is_attached : forall f,
  is_attached_ (GetRenderFrame f) = is_attached_ f.
Proof.
  intros f; unfold GetRenderFrame.
  destruct (negb (render_frame_ f) && _); reflexivity.
Qed.

Lemma GetRenderFrame_keeps_queue : forall f,
  queued_actions_ (GetRenderFrame f) = queued_actions_ f.
Proof.
  intros f; unfold GetRenderFrame.
  destruct (negb (render_frame_ f) && _); reflexivity.
Qed.

(** What the loop of [FrameAttached] leaves: the queue is empty, and the
    trace has grown by the queue, in order, when the remote is bound. *)
Lemma drain_queued_actions_spec : forall queue w,
  queued_actions_ (self w) = queue ->
  drain_queued_actions queue w =
  mkWorld (with_queued_actions [] (self w))
          (trace w ++ (if render_frame_ (self w) then map ToRenderFrame queue else []))
          (ui_tasks w).
Proof.
  induction queue as [|front rest IH]; intros [[m i b fo u n p q rf rfh a] tr tasks] Hq;
    simpl in *; subst q.
  - unfold with_queued_actions; simpl.
    destruct rf; simpl; rewrite app_nil_r; reflexivity.
  - destruct rf; simpl.
    + rewrite IH by reflexivity; simpl.
      unfold with_queued_actions; simpl. rewrite <- app_assoc. reflexivity.
    + rewrite IH by reflexivity; simpl. reflexivity.
Qed.

(** [FrameAttached] on a handle that is not attached yet, in closed form. *)
Lemma FrameAttached_first : forall w,
  is_attached_ (self w) = false ->
  FrameAttached w =
  mkWorld (with_queued_actions [] (GetRenderFrame (with_is_attached true (self w))))
          (trace w ++ (if render_frame_ (GetRenderFrame (self w))
                       then map ToRenderFrame (queued_actions_ (self w)) else []))
          (ui_tasks w).
Proof.
  intros [[m i b fo u n p q rf rfh a] tr tasks] Ha; simpl in Ha; subst a.
  unfold FrameAttached; simpl.
  rewrite drain_queued_actions_spec by reflexivity.
  unfold GetRenderFrame; simpl.
  destruct rf; simpl; auto.
  destruct rfh as [h|]; simpl; auto.
  destruct (GetRemoteInterfaces h); simpl; auto.
Qed.

Lemma FrameAttached_is_attached : forall w,
  is_attached_ (self (FrameAttached w)) = true.
Proof.
  intros w. destruct (is_attached_ (self w)) eqn:Ha.
  - unfold FrameAttached. rewrite Ha. simpl. exact Ha.
  - rewrite FrameAttached_first by exact Ha. simpl.
    unfold GetRenderFrame; simpl.
    destruct (negb (render_frame_ (self w)) && _); reflexivity.
Qed.

Lemma SendToRenderFrame_unattached : forall w h action,
  render_frame_host_ (self w) = Some h ->
  is_attached_ (self w) = false ->
  SendToRenderFrame CEF_UIT action w =
  set_frame (with_queued_actions (queued_actions_ (self w) ++ [action]) (self w)) w.
Proof.
  intros w h action Hh Ha. unfold SendToRenderFrame; simpl.
  rewrite Hh, Ha. reflexivity.
Qed.

Lemma SendAllToRenderFrame_unattached : forall actions w h,
  render_frame_host_ (self w) = Some h ->
  is_attached_ (self w) = false ->
  SendAllToRenderFrame actions w =
  set_frame (with_queued_actions (queued_actions_ (self w) ++ actions) (self w)) w.
Proof.
  induction actions as [|action rest IH]; intros w h Hh Ha; simpl.
  - rewrite app_nil_r. destruct w as [[m i b fo u n p q rf rfh a] tr tasks]; reflexivity.
  - rewrite (SendToRenderFrame_unattached _ _ Hh Ha).
    rewrite (IH _ h) by (simpl; assumption).
    destruct w as [[m i b fo u n p q rf rfh a] tr tasks]; simpl.
    unfold set_frame, with_queued_actions; simpl.
    rewrite <- app_assoc. reflexivity.
Qed.







(** C9.  On an attached handle with a frame host whose peer connection does
    not resolve, SendToRenderFrame drops the action: the handle, the trace of
    calls and the posted tasks are all as before, so the action is neither
    queued nor delivered nor reported. *)
Theorem unresolved_peer_drops_action :
  forall (w : World) (h : RenderFrameHost) (action : RenderFrameAction),
    is_attached_ (self w) = true ->
    render_frame_host_ (self w) = Some h ->
    render_frame_ (GetRenderFrame (self w)) = false ->
    SendToRenderFrame CEF_UIT action w = w.
Proof.
  intros [[m i b fo u n p q rf rfh a] tr tasks] h action Ha Hh Hr; simpl in *.
  subst a rfh. unfold SendToRenderFrame; simpl.
  revert Hr. unfold GetRenderFrame; simpl.
  destruct rf; simpl; [discriminate|].
  destruct (GetRemoteInterfaces h); simpl; [discriminate|]. reflexivity.
Qed.

Lemma unresolved_peer_drops_action_witness :
  is_attached_ (self Examples.attached_mute) = true /\
  render_frame_host_ (self Examples.attached_mute) = Some Examples.mute_host /\
  render_frame_ (GetRenderFrame (self Examples.attached_mute)) = false /\
  SendToRenderFrame CEF_UIT (ActSendCommand "Undo") Examples.attached_mute =
  Examples.attached_mute.
Proof.
  split; [reflexivity|]. split; [reflexivity|]. split; [reflexivity|].
  exact (@unresolved_peer_drops_action Examples.attached_mute Examples.mute_host
           (ActSendCommand "Undo") eq_refl eq_refl eq_refl).
Defined.

(** [Detach] in closed form. *)
Lemma Detach_closed_form : forall w : World,
  Detach w =
    mkWorld
      (mkFrameHost (is_main_frame_ (self w)) (frame_id_ (self w)) None
         (is_focused_ (self w)) (url_ (self w)) (name_ (self w))
         (parent_frame_id_ (self w)) [] false None (is_attached_ (self w)))
      (trace w) (ui_tasks w).
Proof.
  intros [[m i b fo u n p q rf rfh a] tr tasks].
  unfold Detach, set_frame; simpl. rewrite pop_all_empty. reflexivity.
Qed.

(** C10.  Detach writes the browser back-reference, the queue, the peer
    connection and the frame-host pointer and nothing else, so the getters of
    the snapshot fields answer after it as they did before. *)
Theorem Detach_frame : forall w : World,
  Detach w =
    mkWorld
      (mkFrameHost (is_main_frame_ (self w)) (frame_id_ (self w)) None
         (is_focused_ (self w)) (url_ (self w)) (name_ (self w))
         (parent_frame_id_ (self w)) [] false None (is_attached_ (self w)))
      (trace w) (ui_tasks w) /\
  GetIdentifier (self (Detach w)) = GetIdentifier (self w) /\
  GetURL (self (Detach w)) = GetURL (self w) /\
  GetName (self (Detach w)) = GetName (self w) /\
  IsFocused (self (Detach w)) = IsFocused (self w) /\
  IsMain (self (Detach w)) = IsMain (self w) /\
  parent_frame_id_ (self (Detach w)) = parent_frame_id_ (self w) /\
  is_attached_ (self (Detach w)) = is_attached_ (self w).
Proof.
  intros w. split; [apply Detach_closed_form|].
  rewrite Detach_closed_form. repeat split.
Qed.

(** C3.  FrameAttached is idempotent: a second call, and any number of
    further calls, leave the world of the first call as it is, so the queue
    is drained at most once; on a handle that is already attached the call
    changes nothing at all. *)
Theorem FrameAttached_idempotent : forall w : World,
  FrameAttached (FrameAttached w) = FrameAttached w /\
  (is_attached_ (self w) = true -> FrameAttached w = w) /\
  (forall n : nat, Nat.iter (S n) FrameAttached w = FrameAttached w).
Proof.
  intros w.
  assert (Hno : forall v, is_attached_ (self v) = true -> FrameAttached v = v).
  { intros v Hv. unfold FrameAttached. rewrite Hv. reflexivity. }
  assert (Htwice : FrameAttached (FrameAttached w) = FrameAttached w).
  { apply Hno. apply FrameAttached_is_attached. }
  split; [exact Htwice|]. split; [apply Hno|].
  induction n as [|n IH].
  - reflexivity.
  - change (FrameAttached (Nat.iter (S n) FrameAttached w) = FrameAttached w).
    rewrite IH. exact Htwice.
Qed.

Lemma FrameAttached_idempotent_witness :
  FrameAttached Examples.attached_mute = Examples.attached_mute.
Proof.
  destruct (FrameAttached_idempotent Examples.attached_mute) as (_ & H & _).
  exact (H eq_refl).
Defined.

(** ** Script execution *)

(** What becomes of an action given to [SendToRenderFrame]: on the UI
    thread, with a frame host, it is run against the peer when the handle is
    attached and the remote resolves, and appended to the queue when the
    handle is not attached; off the UI thread it is posted. *)
Lemma SendToRenderFrame_outcomes : forall (action : RenderFrameAction) (w : World),
  (forall h, render_frame_host_ (self w) = Some h ->
     is_attached_ (self w) = true ->
     render_frame_ (GetRenderFrame (self w)) = true ->
     trace (SendToRenderFrame CEF_UIT action w) = trace w ++ [ToRenderFrame action] /\
     queued_actions_ (self (SendToRenderFrame CEF_UIT action w)) = queued_actions_ (self w)) /\
  (forall h, render_frame_host_ (self w) = Some h ->
     is_attached_ (self w) = false ->
     queued_actions_ (self (SendToRenderFrame CEF_UIT action w)) =
       queued_actions_ (self w) ++ [action] /\
     trace (SendToRenderFrame CEF_UIT action w) = trace w /\
     (render_frame_ (GetRenderFrame (self w)) = true ->
      trace (FrameAttached (SendToRenderFrame CEF_UIT action w)) =
        trace w ++ map ToRenderFrame (queued_actions_ (self w) ++ [action]))) /\
  ui_tasks (SendToRenderFrame CEF_NOT_UIT action w) =
    ui_tasks w ++ [TaskSendToRenderFrame action] /\
  self (SendToRenderFrame CEF_NOT_UIT action w) = self w /\
  trace (SendToRenderFrame CEF_NOT_UIT action w) = trace w.
Proof.
  intros action w. split; [|split; [|split; [|split]]]; try reflexivity.
  - intros h Hh Ha Hr. unfold SendToRenderFrame.
    cbn [CURRENTLY_ON_UIT negb]. rewrite Hh, Ha.
    cbn [negb set_frame self]. rewrite Hr. cbn [negb Run emit trace self].
    split; [reflexivity|apply GetRenderFrame_keeps_queue].
  - intros h Hh Ha. rewrite (SendToRenderFrame_unattached _ _ Hh Ha).
    split; [reflexivity|]. split; [reflexivity|]. intros Hr.
    rewrite FrameAttached_first by (simpl; exact Ha). simpl.
    rewrite GetRenderFrame_ignores_queue, Hr. reflexivity.
Qed.

(** C6.  SendJavaScript with a non-empty script dispatches it with start
    line 1 when the given start line is at most 0 and with the given start
    line when it is positive: the script, with that line, is what is handed
    to SendToRenderFrame, and so what the peer is called with on an attached
    handle whose remote resolves, what joins the queue (and reaches the peer
    at FrameAttached) on a handle that is not attached, and what is posted
    off the UI thread.  With an empty script nothing is dispatched: the
    world is left as it is. *)
Theorem SendJavaScript_start_line :
  forall (t : ThreadId) (jsCode scriptUrl : string) (startLine : Z) (w : World),
    (jsCode <> "" -> startLine <= 0 ->
       SendJavaScript t jsCode scriptUrl startLine w =
       SendToRenderFrame t (ActSendJavaScript jsCode scriptUrl 1) w) /\
    (jsCode <> "" -> 0 < startLine ->
       SendJavaScript t jsCode scriptUrl startLine w =
       SendToRenderFrame t (ActSendJavaScript jsCode scriptUrl startLine) w) /\
    SendJavaScript t "" scriptUrl startLine w = w /\
    ExecuteJavaScript t jsCode scriptUrl startLine w =
      SendJavaScript t jsCode scriptUrl startLine w /\
    (forall line : Z,
       jsCode <> "" ->
       (startLine <= 0 /\ line = 1) \/ (0 < startLine /\ line = startLine) ->
       let script := ActSendJavaScript jsCode scriptUrl line in
       (forall h, render_frame_host_ (self w) = Some h ->
          is_attached_ (self w) = true ->
          render_frame_ (GetRenderFrame (self w)) = true ->
          trace (SendJavaScript CEF_UIT jsCode scriptUrl startLine w) =
            trace w ++ [ToRenderFrame script]) /\
       (forall h, render_frame_host_ (self w) = Some h ->
          is_attached_ (self w) = false ->
          queued_actions_ (self (SendJavaScript CEF_UIT jsCode scriptUrl startLine w)) =
            queued_actions_ (self w) ++ [script] /\
          (render_frame_ (GetRenderFrame (self w)) = true ->
           trace (FrameAttached (SendJavaScript CEF_UIT jsCode scriptUrl startLine w)) =
             trace w ++ map ToRenderFrame (queued_actions_ (self w) ++ [script]))) /\
       ui_tasks (SendJavaScript CEF_NOT_UIT jsCode scriptUrl startLine w) =
         ui_tasks w ++ [TaskSendToRenderFrame script]).
Proof.
  intros t jsCode scriptUrl startLine w.
  assert (Hsend : forall t' line, jsCode <> "" ->
            (startLine <= 0 /\ line = 1) \/ (0 < startLine /\ line = startLine) ->
            SendJavaScript t' jsCode scriptUrl startLine w =
            SendToRenderFrame t' (ActSendJavaScript jsCode scriptUrl line) w).
  { intros t' line Hjs Hline. unfold SendJavaScript.
    destruct (String.eqb_spec jsCode "") as [E|_]; [contradiction|].
    destruct Hline as [(Hle & ->)|(Hlt & ->)];
      destruct (Z.leb_spec startLine 0); try reflexivity; lia. }
  split; [intros Hjs Hle; apply Hsend; [exact Hjs|left; split; [exact Hle|reflexivity]]|].
  split; [intros Hjs Hlt; apply Hsend; [exact Hjs|right; split; [exact Hlt|reflexivity]]|].
  split; [reflexivity|]. split; [reflexivity|].
  intros line Hjs Hline script. subst script.
  rewrite !(Hsend _ line Hjs Hline).
  destruct (SendToRenderFrame_outcomes (ActSendJavaScript jsCode scriptUrl line) w)
    as (Hattached & Hqueued & Hposted & _).
  split; [|split; [|exact Hposted]].
  - intros h Hh Ha Hr. exact (proj1 (Hattached h Hh Ha Hr)).
  - intros h Hh Ha. destruct (Hqueued h Hh Ha) as (Hq & _ & Hdrain).
    split; [exact Hq|exact Hdrain].
Qed.

Lemma SendJavaScript_start_line_witness :
  ("f()" <> "" /\ -3 <= 0) /\
  render_frame_host_ (self (FrameAttached Examples.bound_child)) = Some Examples.child_host /\
  is_attached_ (self (FrameAttached Examples.bound_child)) = true /\
  render_frame_ (GetRenderFrame (self (FrameAttached Examples.bound_child))) = true /\
  trace (SendJavaScript CEF_UIT "f()" "about:blank" (-3) (FrameAttached Examples.bound_child)) =
    [ToRenderFrame (ActSendJavaScript "f()" "about:blank" 1)] /\
  trace (SendJavaScript CEF_UIT "f()" "about:blank" 12 (FrameAttached Examples.bound_child)) =
    [ToRenderFrame (ActSendJavaScript "f()" "about:blank" 12)] /\
  is_attached_ (self Examples.bound_child) = false /\
  queued_actions_ (self (SendJavaScript CEF_UIT "f()" "about:blank" 0 Examples.bound_child)) =
    [ActSendJavaScript "f()" "about:blank" 1] /\
  ui_tasks (SendJavaScript CEF_NOT_UIT "f()" "about:blank" 0 Examples.bound_child) =
    [TaskSendToRenderFrame (ActSendJavaScript "f()" "about:blank" 1)] /\
  SendJavaScript CEF_UIT "" "about:blank" 12 (FrameAttached Examples.bound_child) =
    FrameAttached Examples.bound_child.
Proof.
  assert (Hjs : "f()" <> "") by discriminate.
  assert (Hneg : -3 <= 0) by (apply Z.leb_le; reflexivity).
  assert (Hzero : 0 <= 0) by (apply Z.leb_le; reflexivity).
  assert (Hpos : 0 < 12) by (apply Z.ltb_lt; reflexivity).
  split; [split; [exact Hjs|exact Hneg]|].
  split; [reflexivity|]. split; [reflexivity|]. split; [reflexivity|].
  split.
  { destruct (SendJavaScript_start_line CEF_UIT "f()" "about:blank" (-3)
                (FrameAttached Examples.bound_child)) as (_ & _ & _ & _ & H).
    destruct (H 1 Hjs (or_introl (conj Hneg eq_refl))) as (Hrun & _).
    exact (Hrun Examples.child_host eq_refl eq_refl eq_refl). }
  split.
  { destruct (SendJavaScript_start_line CEF_UIT "f()" "about:blank" 12
                (FrameAttached Examples.bound_child)) as (_ & _ & _ & _ & H).
    destruct (H 12 Hjs (or_intror (conj Hpos eq_refl))) as (Hrun & _).
    exact (Hrun Examples.child_host eq_refl eq_refl eq_refl). }
  split; [reflexivity|].
  destruct (SendJavaScript_start_line CEF_UIT "f()" "about:blank" 0 Examples.bound_child)
    as (_ & _ & _ & _ & H).
  destruct (H 1 Hjs (or_introl (conj Hzero eq_refl))) as (_ & Hqueue & Hpost).
  split; [exact (proj1 (Hqueue Examples.child_host eq_refl eq_refl))|].
  split; [exact Hpost|].
  destruct (SendJavaScript_start_line CEF_UIT "f()" "about:blank" 12
              (FrameAttached Examples.bound_child)) as (_ & _ & Hempty & _).
  exact Hempty.
Defined.

(** What the peer sees of a script on an attached handle with a bound
    remote: one call, with the start line made positive. *)
Lemma SendJavaScript_delivered :
  forall (jsCode scriptUrl : string) (startLine : Z) (w : World) (h : RenderFrameHost),
    jsCode <> "" ->
    render_frame_host_ (self w) = Some h ->
    is_attached_ (self w) = true ->
    render_frame_ (self w) = true ->
    SendJavaScript CEF_UIT jsCode scriptUrl startLine w =
    emit (ToRenderFrame (ActSendJavaScript jsCode scriptUrl (Z.max 1 startLine))) w.
Proof.
  intros jsCode scriptUrl startLine [[m i b fo u n p q rf rfh a] tr tasks] h Hjs Hh Ha Hrf.
  simpl in *; subst. unfold SendJavaScript.
  destruct (String.eqb_spec jsCode "") as [E|_]; [contradiction|].
  replace (if startLine <=? 0 then 1 else startLine) with (Z.max 1 startLine)
    by (destruct (Z.leb_spec startLine 0); lia).
  reflexivity.
Qed.

(** ** Load notifications *)

(** C8, as the code has it.  The filter on the renderer process belongs to
    MaybeSendDidStopLoading, whose notification goes to the peer: with no
    frame host, or with a parent in the same renderer process, nothing is
    sent; with a parent in another process, or with no parent, DidStopLoading
    is handed to SendToRenderFrame.  DidFinishFrameLoad forwards the load
    finish to the owning browser whenever the browser is live, whatever the
    process of the parent, and does nothing without a browser. *)
Theorem load_notifications :
  forall (w : World),
    (GetRenderFrameHost (self w) = None -> MaybeSendDidStopLoading w = w) /\
    (forall rfh parent,
       GetRenderFrameHost (self w) = Some rfh -> GetParent rfh = Some parent ->
       GetProcess_GetID parent = GetProcess_GetID rfh ->
       MaybeSendDidStopLoading w = w) /\
    (forall rfh parent,
       GetRenderFrameHost (self w) = Some rfh -> GetParent rfh = Some parent ->
       GetProcess_GetID parent <> GetProcess_GetID rfh ->
       MaybeSendDidStopLoading w = SendToRenderFrame CEF_UIT ActDidStopLoading w) /\
    (forall rfh,
       GetRenderFrameHost (self w) = Some rfh -> GetParent rfh = None ->
       MaybeSendDidStopLoading w = SendToRenderFrame CEF_UIT ActDidStopLoading w) /\
    (forall validated_url http_status_code b,
       GetBrowserHostBase (self w) = Some b ->
       DidFinishFrameLoad validated_url http_status_code w =
       emit (Browser_OnDidFinishLoad validated_url http_status_code) w) /\
    (forall validated_url http_status_code,
       GetBrowserHostBase (self w) = None ->
       DidFinishFrameLoad validated_url http_status_code w = w).
Proof.
  intros w. unfold MaybeSendDidStopLoading, DidFinishFrameLoad.
  repeat split.
  - intros H; rewrite H; reflexivity.
  - intros rfh parent H Hp He; rewrite H, Hp.
    apply Z.eqb_eq in He; rewrite He; reflexivity.
  - intros rfh parent H Hp Hne; rewrite H, Hp.
    apply Z.eqb_neq in Hne; rewrite Hne; reflexivity.
  - intros rfh H Hp; rewrite H, Hp; reflexivity.
  - intros validated_url http_status_code b H; rewrite H; reflexivity.
  - intros validated_url http_status_code H; rewrite H; reflexivity.
Qed.

Lemma load_notifications_witness :
  MaybeSendDidStopLoading Examples.bound_child = Examples.bound_child /\
  MaybeSendDidStopLoading Examples.bound_oop_child =
    SendToRenderFrame CEF_UIT ActDidStopLoading Examples.bound_oop_child /\
  DidFinishFrameLoad (mkGURL "https://example.com/a") 200 Examples.bound_child =
    emit (Browser_OnDidFinishLoad (mkGURL "https://example.com/a") 200) Examples.bound_child.
Proof.
  split; [|split].
  - destruct (load_notifications Examples.bound_child) as (_ & H & _).
    exact (H Examples.child_host Examples.main_host eq_refl eq_refl eq_refl).
  - destruct (load_notifications Examples.bound_oop_child) as (_ & _ & H & _).
    apply (H Examples.oop_child_host Examples.main_host eq_refl eq_refl).
    discriminate.
  - destruct (load_notifications Examples.bound_child) as (_ & _ & _ & _ & H & _).
    exact (H _ _ _ eq_refl).
Defined.

(** C8 as stated fails: a child frame in its parent's renderer process, with
    a live browser, forwards its load finish to the browser. *)
Lemma same_process_child_load_finish_is_forwarded :
  GetRenderFrameHost (self Examples.bound_child) = Some Examples.child_host /\
  GetParent Examples.child_host = Some Examples.main_host /\
  GetProcess_GetID Examples.main_host = GetProcess_GetID Examples.child_host /\
  trace (DidFinishFrameLoad (mkGURL "https://example.com/a") 200 Examples.bound_child) =
    [Browser_OnDidFinishLoad (mkGURL "https://example.com/a") 200].
Proof. repeat split. Qed.

(** ** The queue is used only before attachment *)

Lemma queue_step_refl : forall w, queue_step w w.
Proof. intros w; left; auto. Qed.

Lemma queue_step_same_frame : forall w w', self w' = self w -> queue_step w w'.
Proof. intros w w' H; left; rewrite H; auto. Qed.

Lemma SendToRenderFrame_queue_step : forall t action w,
  queue_step w (SendToRenderFrame t action w).
Proof.
  intros t action w. unfold SendToRenderFrame.
  destruct t; simpl.
  - destruct (render_frame_host_ (self w)); [|apply queue_step_refl].
    destruct (is_attached_ (self w)) eqn:Ha; simpl.
    + left. destruct (render_frame_ (GetRenderFrame (self w)));
        cbn [negb self set_frame Run emit];
        rewrite GetRenderFrame_keeps_is_attached, GetRenderFrame_keeps_queue; auto.
    + left; simpl; split; [reflexivity|]. right; split; [exact Ha|].
      exists action; reflexivity.
  - apply queue_step_same_frame; reflexivity.
Qed.


Lemma emit_queue_step : forall e w w', queue_step w w' -> queue_step w (emit e w').
Proof. intros e w w' H; exact H. Qed.

Lemma FrameAttached_queue_step : forall w, queue_step w (FrameAttached w).
Proof.
  intros w. destruct (is_attached_ (self w)) eqn:Ha.
  - unfold FrameAttached; rewrite Ha; apply queue_step_refl.
  - right. rewrite FrameAttached_first by exact Ha. reflexivity.
Qed.

Lemma Detach_queue_step : forall w, queue_step w (Detach w).
Proof. intros w; right. rewrite Detach_closed_form. reflexivity. Qed.

Lemma SendJavaScript_queue_step : forall t jsCode scriptUrl startLine w,
  queue_step w (SendJavaScript t jsCode scriptUrl startLine w).
Proof.
  intros; unfold SendJavaScript.
  destruct (String.eqb jsCode ""); [apply queue_step_refl|apply SendToRenderFrame_queue_step].
Qed.

Lemma SendProcessMessage_queue_step : forall t target message w,
  queue_step w (SendProcessMessage t target message w).
Proof.
  intros; unfold SendProcessMessage.
  destruct message as [m|]; [|apply queue_step_refl].
  destruct (message_IsValid m); simpl;
    [apply SendToRenderFrame_queue_step|apply queue_step_refl].
Qed.

Lemma MaybeSendDidStopLoading_queue_step : forall w,
  queue_step w (MaybeSendDidStopLoading w).
Proof.
  intros; unfold MaybeSendDidStopLoading.
  destruct (GetRenderFrameHost (self w)) as [rfh|]; [|apply queue_step_refl].
  destruct (GetParent rfh) as [parent|]; [|apply SendToRenderFrame_queue_step].
  destruct (GetProcess_GetID parent =? GetProcess_GetID rfh);
    [apply queue_step_refl|apply SendToRenderFrame_queue_step].
Qed.

Lemma ExecuteJavaScriptWithUserGestureForTests_same_frame : forall t javascript w,
  self (ExecuteJavaScriptWithUserGestureForTests t javascript w) = self w.
Proof.
  intros; unfold ExecuteJavaScriptWithUserGestureForTests.
  destruct t; simpl; [|reflexivity].
  destruct (GetRenderFrameHost (self w)); reflexivity.
Qed.

Lemma RunPostedTask_queue_step : forall w, queue_step w (RunPostedTask w).
Proof.
  intros w; unfold RunPostedTask.
  destruct (ui_tasks w) as [|task rest]; [apply queue_step_refl|].
  destruct task as [action|javascript].
  - apply (SendToRenderFrame_queue_step CEF_UIT action (mkWorld (self w) (trace w) rest)).
  - apply queue_step_same_frame.
    apply (ExecuteJavaScriptWithUserGestureForTests_same_frame CEF_UIT javascript
             (mkWorld (self w) (trace w) rest)).
Qed.

Section QueueInvariant.
Context {helpers : Helpers}.

Lemma LoadRequest_queue_step : forall t params w, queue_step w (LoadRequest t params w).
Proof.
  intros; unfold LoadRequest.
  destruct (url_util_FixupGURL (params_url params)) as [ok fixed].
  destruct ok; simpl; [|apply queue_step_refl].
  destruct (GetBrowserHostBase _); [apply emit_queue_step|];
    apply SendToRenderFrame_queue_step.
Qed.

Lemma LoadURLWithExtras_queue_step : forall t url referrer transition headers w,
  queue_step w (LoadURLWithExtras t url referrer transition headers w).
Proof.
  intros; unfold LoadURLWithExtras.
  destruct (GetFrameId (self w) <? kMainFrameId); [apply queue_step_refl|].
  destruct (GetFrameId (self w) =? kMainFrameId); [|apply LoadRequest_queue_step].
  destruct (GetBrowserHostBase (self w)); apply queue_step_same_frame; reflexivity.
Qed.

Lemma SetRenderFrameHost_queue_step : forall host w w',
  SetRenderFrameHost host w = Some w' -> queue_step w w'.
Proof.
  intros host w w'; unfold SetRenderFrameHost.
  destruct (browser_info_ (self w)); [|discriminate].
  intros H; injection H as <-. left; simpl; auto.
Qed.

Lemma RefreshAttributes_queue_step : forall w w',
  RefreshAttributes w = Some w' -> queue_step w w'.
Proof.
  intros w w'; unfold RefreshAttributes.
  destruct (render_frame_host_ (self w)) as [h|].
  - destruct (negb (is_main_frame_ (self w))).
    + destruct (MakeFrameId (GetParent h)); [|discriminate].
      intros H; injection H as <-. left; simpl; auto.
    + intros H; injection H as <-. left; simpl; auto.
  - intros H; injection H as <-. apply queue_step_refl.
Qed.

Lemma step_queue_step : forall op w w', step op w = Some w' -> queue_step w w'.
Proof.
  intros op w w' Hstep.
  destruct op; simpl in Hstep;
    try (injection Hstep as <-).
  - eapply SetRenderFrameHost_queue_step; eassumption.
  - left; simpl; auto.
  - eapply RefreshAttributes_queue_step; eassumption.
  - apply Detach_queue_step.
  - apply FrameAttached_queue_step.
  - apply SendToRenderFrame_queue_step.
  - apply SendToRenderFrame_queue_step.
  - apply SendToRenderFrame_queue_step.
  - apply SendJavaScript_queue_step.
  - apply SendProcessMessage_queue_step.
  - apply SendToRenderFrame_queue_step.
  - apply LoadRequest_queue_step.
  - apply LoadURLWithExtras_queue_step.
  - apply MaybeSendDidStopLoading_queue_step.
  - apply queue_step_same_frame. unfold DidFinishFrameLoad.
    destruct (GetBrowserHostBase (self w)); reflexivity.
  - apply queue_step_same_frame. unfold SendMessage.
    destruct (GetBrowserHostBase (self w)) as [b|]; [|reflexivity].
    destruct (GetClient b); reflexivity.
  - apply queue_step_same_frame. unfold UpdateDraggableRegions.
    destruct (GetBrowserHostBase (self w)) as [b|]; [|reflexivity].
    destruct (negb _); reflexivity.
  - apply queue_step_same_frame, ExecuteJavaScriptWithUserGestureForTests_same_frame.
  - apply RunPostedTask_queue_step.
Qed.

Lemma queue_step_invariant : forall w w',
  queue_step w w' -> queue_invariant w -> queue_invariant w'.
Proof.
  intros w w' [(Ha & [Hq|(Hf & _)])|Hq] Hinv Hw'.
  - rewrite Hq. apply Hinv. rewrite <- Ha. exact Hw'.
  - rewrite Ha, Hf in Hw'. discriminate.
  - exact Hq.
Qed.

Lemma reachable_queue_invariant : forall w, reachable w -> queue_invariant w.
Proof.
  induction 1 as [bi m p|bi host w Hnew|op w w' Hreach IH Hstep].
  - intros _; reflexivity.
  - revert Hnew. unfold CefFrameHostImpl_new_bound.
    destruct (if match GetParent host with Some _ => false | None => true end
              then Some kInvalidFrameId else MakeFrameId (GetParent host)) as [p|];
      [|discriminate].
    unfold SetRenderFrameHost; simpl. destruct bi; [|discriminate].
    intros H; injection H as <-. intros _; reflexivity.
  - eapply queue_step_invariant; [eapply step_queue_step; eassumption|exact IH].
Qed.

(** C7.  In every reachable world the queue is non-empty only while the
    handle is not attached: SendToRenderFrame changes the queue only on a
    handle that is not attached, FrameAttached and Detach leave it empty, and
    no call makes it non-empty on an attached handle. *)
Theorem queue_nonempty_only_unattached : forall w : World,
  reachable w ->
  (queued_actions_ (self w) <> [] -> is_attached_ (self w) = false) /\
  (forall t action,
     queued_actions_ (self (SendToRenderFrame t action w)) <> queued_actions_ (self w) ->
     is_attached_ (self w) = false) /\
  queued_actions_ (self (FrameAttached w)) = [] /\
  queued_actions_ (self (Detach w)) = [] /\
  (forall op w', step op w = Some w' ->
     is_attached_ (self w') = true -> queued_actions_ (self w') = []).
Proof.
  intros w Hreach. pose proof (reachable_queue_invariant Hreach) as Hinv.
  split; [|split; [|split; [|split]]].
  - intros Hne. destruct (is_attached_ (self w)) eqn:Ha; [|reflexivity].
    elim Hne. apply Hinv. exact Ha.
  - intros t action Hne.
    destruct (SendToRenderFrame_queue_step t action w) as [(_ & [Hq|(Hf & _)])|Hq].
    + contradiction.
    + exact Hf.
    + destruct (is_attached_ (self w)) eqn:Ha; [|reflexivity].
      elim Hne. rewrite Hq. symmetry. apply Hinv. exact Ha.
  - destruct (is_attached_ (self w)) eqn:Ha.
    + unfold FrameAttached. rewrite Ha. simpl. apply Hinv. exact Ha.
    + rewrite FrameAttached_first by exact Ha. reflexivity.
  - rewrite Detach_closed_form. reflexivity.
  - intros op w' Hstep.
    exact (reachable_queue_invariant (reachable_step _ Hreach Hstep)).
Qed.
End QueueInvariant.

Lemma queue_nonempty_only_unattached_witness :
  reachable (helpers := Examples.example_helpers) Examples.queued_child /\
  queued_actions_ (self Examples.queued_child) <> [] /\
  is_attached_ (self Examples.queued_child) = false /\
  queued_actions_ (self (FrameAttached Examples.queued_child)) = [].
Proof.
  assert (Hreach : reachable (helpers := Examples.example_helpers) Examples.queued_child).
  { apply (reachable_step (helpers := Examples.example_helpers)
             (OpSendToRenderFrame CEF_UIT (ActSendCommand "Paste"))
             (w := SendAllToRenderFrame
                     [ActSendCommand "Copy"; ActSendJavaScript "f()" "about:blank" 1]
                     Examples.bound_child)); [|reflexivity].
    apply (reachable_step (helpers := Examples.example_helpers)
             (OpSendToRenderFrame CEF_UIT (ActSendJavaScript "f()" "about:blank" 1))
             (w := SendAllToRenderFrame [ActSendCommand "Copy"] Examples.bound_child));
      [|reflexivity].
    apply (reachable_step (helpers := Examples.example_helpers)
             (OpSendToRenderFrame CEF_UIT (ActSendCommand "Copy"))
             (w := Examples.bound_child)); [|reflexivity].
    apply (reachable_new_bound (helpers := Examples.example_helpers)
             (Some Examples.live_info) Examples.child_host). reflexivity. }
  destruct (queue_nonempty_only_unattached Hreach) as (H1 & _ & H2 & _).
  split; [exact Hreach|]. split; [discriminate|]. split; [|exact H2].
  apply H1. discriminate.
Defined.

(** ** Detach is final *)

Lemma Detach_detached : forall w, detached (Detach w).
Proof.
  intros w. rewrite Detach_closed_form. repeat split.
Qed.

Lemma detached_not_valid : forall w, detached w -> IsValid (self w) = false.
Proof.
  intros w (Hb & _). unfold IsValid, GetBrowserHostBase. rewrite Hb. reflexivity.
Qed.

Section AfterDetach.
Context {helpers : Helpers}.

(** On a detached handle every call that returns keeps the handle detached
    and makes no call on a collaborator; the calls that end in
    [SendToRenderFrame] leave the handle as it is. *)
Lemma step_detached : forall op w w',
  detached w -> step op w = Some w' ->
  detached w' /\ trace w' = trace w /\
  (peer_directed op = true -> self w' = self w).
Proof.
  intros op [[m i b fo u n p q rf rfh a] tr tasks] w' (Hb & Hh & Hq) Hstep.
  simpl in Hb, Hh, Hq; subst b rfh q.
  destruct op; simpl in Hstep; unfold FrameAttached in Hstep;
    unfold_members Hstep;
    simpl in Hstep; break_step Hstep; try discriminate;
    injection Hstep as <-; unfold detached; simpl; repeat split; auto;
    try discriminate.
Qed.

(** The only call that fails on a detached handle is the one that binds a
    frame host: its [CHECK(browser_info_)]. *)
Lemma step_detached_total : forall op w,
  detached w -> step op w = None -> exists host, op = OpSetRenderFrameHost host.
Proof.
  intros op w (Hb & Hh & Hq) Hstep.
  destruct op; simpl in Hstep; try discriminate.
  - exists host; reflexivity.
  - unfold RefreshAttributes in Hstep. rewrite Hh in Hstep. discriminate.
Qed.

Lemma run_detached : forall ops w,
  detached w ->
  match run ops w with
  | Some w' => detached w' /\ trace w' = trace w
  | None => exists host, In (OpSetRenderFrameHost host) ops
  end.
Proof.
  induction ops as [|op rest IH]; intros w Hd; simpl.
  - split; [exact Hd|reflexivity].
  - destruct (step op w) as [w1|] eqn:Hstep.
    + destruct (step_detached _ Hd Hstep) as (Hd1 & Htr & _).
      specialize (IH w1 Hd1). destruct (run rest w1) as [w'|].
      * rewrite <- Htr. exact IH.
      * destruct IH as (host & Hin). exists host; right; exact Hin.
    + destruct (step_detached_total _ Hd Hstep) as (host & ->).
      exists host; left; reflexivity.
Qed.

(** C2.  Whatever the world before it, Detach leaves IsValid false, the
    queue empty and the trace of calls as it was, so nothing queued is
    delivered.  After any further calls IsValid is still false and no call
    has reached the peer or the browser; a further SendToRenderFrame, or a
    member function that ends in it, returns with the handle and the trace
    unchanged (off the UI thread it only posts itself to the UI thread,
    where it then does nothing).  The one call that does not return on a
    detached handle is SetRenderFrameHost, which fails its CHECK. *)
Theorem Detach_is_final : forall (w : World) (ops : list Op),
  IsValid (self (Detach w)) = false /\
  queued_actions_ (self (Detach w)) = [] /\
  trace (Detach w) = trace w /\
  match run ops (Detach w) with
  | Some w' =>
      IsValid (self w') = false /\
      trace w' = trace w /\
      forall op, peer_directed op = true ->
        exists w'', step op w' = Some w'' /\ self w'' = self w' /\ trace w'' = trace w'
  | None => exists host, In (OpSetRenderFrameHost host) ops
  end.
Proof.
  intros w ops. pose proof (Detach_detached w) as Hd.
  split; [apply detached_not_valid, Hd|].
  split; [apply Hd|].
  assert (Htr : trace (Detach w) = trace w) by reflexivity.
  split; [exact Htr|].
  pose proof (run_detached ops Hd) as Hrun.
  destruct (run ops (Detach w)) as [w'|]; [|exact Hrun].
  destruct Hrun as (Hd' & Htr').
  split; [apply detached_not_valid, Hd'|].
  split; [congruence|].
  intros op Hpeer. destruct (step op w') as [w''|] eqn:Hstep.
  - destruct (step_detached _ Hd' Hstep) as (_ & Ht & Hs).
    exists w''; auto.
  - destruct (step_detached_total _ Hd' Hstep) as (host & ->). discriminate.
Qed.

End AfterDetach.

Lemma Detach_is_final_witness :
  exists w',
    run (helpers := Examples.example_helpers) Examples.calls_after_detach
      (Detach Examples.queued_child) = Some w' /\
    IsValid (self w') = false /\
    trace w' = [] /\
    exists w'',
      step (helpers := Examples.example_helpers) (OpSendCommand CEF_UIT "Copy") w' = Some w'' /\
      self w'' = self w' /\ trace w'' = trace w'.
Proof.
  destruct (@Detach_is_final Examples.example_helpers Examples.queued_child
              Examples.calls_after_detach) as (_ & _ & _ & H).
  destruct (run (helpers := Examples.example_helpers) Examples.calls_after_detach
              (Detach Examples.queued_child)) as [w'|] eqn:Hrun.
  - exists w'. destruct H as (Hv & Ht & Hop).
    split; [reflexivity|]. split; [exact Hv|]. split; [exact Ht|].
    exact (Hop (OpSendCommand CEF_UIT "Copy") eq_refl).
  - discriminate Hrun.
Defined.

(** ** Frame identifiers *)

Lemma drain_keeps_is_main_frame : forall queue w,
  is_main_frame_ (self (drain_queued_actions queue w)) = is_main_frame_ (self w).
Proof.
  induction queue as [|front rest IH]; intros w; simpl; [reflexivity|].
  rewrite IH. simpl. destruct (render_frame_ (self w)); reflexivity.
Qed.

Lemma FrameAttached_keeps_is_main_frame : forall w,
  is_main_frame_ (self (FrameAttached w)) = is_main_frame_ (self w).
Proof.
  intros w. unfold FrameAttached.
  destruct (is_attached_ (self w)); simpl; [reflexivity|].
  rewrite drain_keeps_is_main_frame. simpl.
  unfold GetRenderFrame. destruct (negb _ && _); reflexivity.
Qed.

Section FrameIdentifiers.
Context {helpers : Helpers}.

(** [is_main_frame_] is written by the constructors only. *)
Lemma step_keeps_is_main_frame : forall op w w',
  step op w = Some w' -> is_main_frame_ (self w') = is_main_frame_ (self w).
Proof.
  intros op w w' Hstep.
  destruct op; simpl in Hstep;
    try (injection Hstep as <-; apply FrameAttached_keeps_is_main_frame).
  all: destruct w as [[m i b fo u n p q rf rfh a] tr tasks];
    unfold_members Hstep;
    simpl in Hstep; break_step Hstep; try discriminate;
    injection Hstep as <-; reflexivity.
Qed.

Lemma run_keeps_is_main_frame : forall ops w w',
  run ops w = Some w' -> is_main_frame_ (self w') = is_main_frame_ (self w).
Proof.
  induction ops as [|op rest IH]; intros w w' Hrun; simpl in Hrun.
  - injection Hrun as <-; reflexivity.
  - destruct (step op w) as [w1|] eqn:Hstep; [|discriminate].
    rewrite (IH _ _ Hrun). exact (step_keeps_is_main_frame _ _ Hstep).
Qed.

(** C4, as the code has it.  On a handle constructed as the main frame,
    after any calls, GetFrameId is the sentinel kMainFrameId = -1 whatever
    the frame id tracked in frame_id_.  GetIdentifier returns the tracked
    frame_id_ itself: kInvalidFrameId on a fresh handle, the packed
    (process id, routing id) of the host once one is bound. *)
Theorem main_frame_identifiers :
  forall (w : World) (ops : list Op) (w' : World),
    is_main_frame_ (self w) = true ->
    run ops w = Some w' ->
    GetFrameId (self w') = kMainFrameId /\
    GetIdentifier (self w') = frame_id_ (self w') /\
    (forall browser_info parent_frame_id,
       GetIdentifier (self (CefFrameHostImpl_new browser_info true parent_frame_id)) =
       kInvalidFrameId) /\
    (forall host bound,
       SetRenderFrameHost host w' = Some bound ->
       GetFrameId (self bound) = kMainFrameId /\
       GetIdentifier (self bound) =
         frame_util_MakeFrameId (GetProcess_GetID host) (GetRoutingID host)).
Proof.
  intros w ops w' Hmain Hrun.
  pose proof (run_keeps_is_main_frame _ _ Hrun) as Hkeep.
  rewrite Hmain in Hkeep.
  split; [unfold GetFrameId; rewrite Hkeep; reflexivity|].
  split; [reflexivity|]. split; [reflexivity|].
  intros host bound Hbind.
  pose proof (step_keeps_is_main_frame (OpSetRenderFrameHost host) _ Hbind) as Hb.
  rewrite Hkeep in Hb. split.
  - unfold GetFrameId. rewrite Hb. reflexivity.
  - revert Hbind. unfold SetRenderFrameHost.
    destruct (browser_info_ (self w')); [|discriminate].
    intros H; injection H as <-. reflexivity.
Qed.

(** ** Navigation *)

(** C5, as the code has it.  With GetFrameId equal to kMainFrameId the load
    goes to the owning browser's LoadMainFrameURL when the browser is live,
    and does nothing otherwise; either way the handle, its queue and the
    posted tasks are untouched.  With a frame id above the sentinel the
    request is handed to SendToRenderFrame with the url that FixupGURL left,
    followed by OnSetFocus on a live browser, when FixupGURL accepts the
    url, and is dropped when it does not.  With a frame id below the sentinel
    the call does nothing. *)
Theorem LoadURLWithExtras_paths :
  forall (t : ThreadId) (url : string) (referrer : Referrer) (transition : Z)
         (headers : string) (w : World),
    (GetFrameId (self w) = kMainFrameId ->
     forall b, GetBrowserHostBase (self w) = Some b ->
       LoadURLWithExtras t url referrer transition headers w =
       emit (Browser_LoadMainFrameURL
               (mkOpenURLParams (url_util_MakeGURL url false) referrer CURRENT_TAB
                  transition false headers)) w) /\
    (GetFrameId (self w) = kMainFrameId ->
     GetBrowserHostBase (self w) = None ->
       LoadURLWithExtras t url referrer transition headers w = w) /\
    (kMainFrameId < GetFrameId (self w) ->
     forall fixed, url_util_FixupGURL (url_util_MakeGURL url false) = (true, fixed) ->
       LoadURLWithExtras t url referrer transition headers w =
       let sent :=
         SendToRenderFrame t
           (ActLoadRequest (mkRequestParams fixed (Some referrer) headers)) w in
       match GetBrowserHostBase (self sent) with
       | Some _ => emit (Browser_OnSetFocus FOCUS_SOURCE_NAVIGATION) sent
       | None => sent
       end) /\
    (kMainFrameId < GetFrameId (self w) ->
     forall left, url_util_FixupGURL (url_util_MakeGURL url false) = (false, left) ->
       LoadURLWithExtras t url referrer transition headers w = w) /\
    (GetFrameId (self w) < kMainFrameId ->
       LoadURLWithExtras t url referrer transition headers w = w) /\
    LoadURL t url w =
      LoadURLWithExtras t url Referrer_default kPageTransitionExplicit "" w.
Proof.
  intros t url referrer transition headers w.
  unfold LoadURL, LoadURLWithExtras, LoadRequest.
  split; [|split; [|split; [|split; [|split]]]].
  - intros Hid b Hb. rewrite Hid, Hb. reflexivity.
  - intros Hid Hb. rewrite Hid, Hb. reflexivity.
  - intros Hid fixed Hfix.
    destruct (Z.ltb_spec (GetFrameId (self w)) kMainFrameId); [lia|].
    destruct (Z.eqb_spec (GetFrameId (self w)) kMainFrameId); [lia|].
    simpl. rewrite Hfix. reflexivity.
  - intros Hid left Hfix.
    destruct (Z.ltb_spec (GetFrameId (self w)) kMainFrameId); [lia|].
    destruct (Z.eqb_spec (GetFrameId (self w)) kMainFrameId); [lia|].
    simpl. rewrite Hfix. reflexivity.
  - intros Hid.
    destruct (Z.ltb_spec (GetFrameId (self w)) kMainFrameId); [reflexivity|lia].
  - reflexivity.
Qed.

End FrameIdentifiers.

Lemma main_frame_identifiers_witness :
  is_main_frame_ (self Examples.main_placeholder) = true /\
  run (helpers := Examples.example_helpers)
    [OpSetRenderFrameHost Examples.main_host] Examples.main_placeholder =
    Some Examples.bound_main /\
  GetFrameId (self Examples.bound_main) = kMainFrameId /\
  GetIdentifier (self Examples.bound_main) = frame_id_ (self Examples.bound_main).
Proof.
  destruct (@main_frame_identifiers Examples.example_helpers Examples.main_placeholder
              [OpSetRenderFrameHost Examples.main_host] Examples.bound_main
              eq_refl eq_refl) as (H1 & H2 & _).
  split; [reflexivity|]. split; [reflexivity|]. split; [exact H1|exact H2].
Defined.

(** C4 as stated fails for GetIdentifier: on a main-frame handle it answers
    the tracked frame id, not the sentinel, before binding and after. *)
Lemma main_frame_GetIdentifier_is_not_the_sentinel :
  is_main_frame_ (self Examples.main_placeholder) = true /\
  GetIdentifier (self Examples.main_placeholder) = -4 /\
  GetIdentifier (self Examples.main_placeholder) <> kMainFrameId /\
  is_main_frame_ (self Examples.bound_main) = true /\
  GetIdentifier (self Examples.bound_main) = 30064771073 /\
  GetIdentifier (self Examples.bound_main) <> kMainFrameId.
Proof. repeat split; discriminate. Qed.

Lemma LoadURLWithExtras_paths_witness :
  GetFrameId (self Examples.bound_main) = kMainFrameId /\
  LoadURL (helpers := Examples.example_helpers) CEF_UIT "https://example.com"
    Examples.bound_main =
  emit (Browser_LoadMainFrameURL
          (mkOpenURLParams (mkGURL "https://example.com") Referrer_default CURRENT_TAB
             kPageTransitionExplicit false "")) Examples.bound_main /\
  kMainFrameId < GetFrameId (self Examples.queued_child) /\
  queued_actions_
    (self (LoadURL (helpers := Examples.example_helpers) CEF_UIT "https://example.com"
             Examples.queued_child)) =
  Examples.three_actions ++
  [ActLoadRequest (mkRequestParams (mkGURL "https://example.com")
                     (Some Referrer_default) "")].
Proof.
  split; [reflexivity|]. split; [|split; [reflexivity|]].
  - destruct (@LoadURLWithExtras_paths Examples.example_helpers CEF_UIT
                "https://example.com" Referrer_default kPageTransitionExplicit ""
                Examples.bound_main) as (H & _ & _ & _ & _ & HL).
    rewrite HL. exact (H eq_refl _ eq_refl).
  - destruct (@LoadURLWithExtras_paths Examples.example_helpers CEF_UIT
                "https://example.com" Referrer_default kPageTransitionExplicit ""
                Examples.queued_child) as (_ & _ & H & _ & _ & HL).
    rewrite HL. rewrite (H eq_refl _ eq_refl). reflexivity.
Defined.

(** C5 as stated fails: a main-frame handle that has been detached has frame
    id kMainFrameId, and its LoadURL, whatever the url helpers, makes no call
    at all. *)
Lemma detached_main_frame_LoadURL_reaches_nobody :
  GetFrameId (self (Detach Examples.bound_main)) = kMainFrameId /\
  forall helpers : Helpers,
    LoadURL (helpers := helpers) CEF_UIT "https://example.com"
      (Detach Examples.bound_main) = Detach Examples.bound_main /\
    trace (LoadURL (helpers := helpers) CEF_UIT "https://example.com"
             (Detach Examples.bound_main)) = [].
Proof. split; [reflexivity|]. intros helpers; split; reflexivity. Qed.

(** ** Further properties *)

(** [FrameAttached] in closed form. *)
Lemma FrameAttached_closed_form : forall w,
  FrameAttached w =
  if is_attached_ (self w) then w
  else
    mkWorld (with_queued_actions [] (GetRenderFrame (with_is_attached true (self w))))
            (trace w ++ (if render_frame_ (GetRenderFrame (self w))
                         then map ToRenderFrame (queued_actions_ (self w)) else []))
            (ui_tasks w).
Proof.
  intros w. destruct (is_attached_ (self w)) eqn:Ha.
  - unfold FrameAttached. rewrite Ha. reflexivity.
  - apply FrameAttached_first. exact Ha.
Qed.

Lemma peer_untouched_app : forall s tr tasks evs,
  peer_untouched (mkWorld s tr tasks) ->
  Forall (fun e => is_ToRenderFrame e = false) evs ->
  forall s' tasks', peer_untouched (mkWorld s' (tr ++ evs) tasks').
Proof.
  unfold peer_untouched; simpl. intros. apply Forall_app; split; assumption.
Qed.

Section Reachable.
Context {helpers : Helpers}.

Lemma step_keeps_is_attached : forall op w w',
  step op w = Some w' -> is_attached_ (self w) = true -> is_attached_ (self w') = true.
Proof.
  intros op w w' Hstep Ha.
  analyse_step Hstep FrameAttached_closed_form; simpl in *; try discriminate; reflexivity.
Qed.

Lemma step_binding_invariant : forall op w w',
  step op w = Some w' -> binding_invariant w -> binding_invariant w'.
Proof.
  intros op w w' Hstep (Hh & Hq & Hr).
  analyse_step Hstep FrameAttached_closed_form; simpl in *; rewrite ?pop_all_empty;
    (split; [|split]); simpl;
    try (intros h0 Hh0; solve [discriminate | injection Hh0 as <-; split; [discriminate|reflexivity]
                              | apply Hh; exact Hh0]);
    try (intros Hne; solve [discriminate | apply Hq; exact Hne | elim Hne; reflexivity
                           | destruct (Hr eq_refl) as [H _]; exact H]);
    try (intros Ht; solve [discriminate | exact (Hr Ht) | split; [discriminate|reflexivity]
                          | destruct (Hr eq_refl) as [_ Hf]; discriminate Hf
                          | destruct rfh; [split; [discriminate|reflexivity]|discriminate]]).
Qed.

Lemma new_binding_invariant : forall browser_info is_main_frame parent_frame_id,
  binding_invariant (CefFrameHostImpl_new browser_info is_main_frame parent_frame_id).
Proof.
  intros; split; [|split]; simpl.
  - intros h Hh; discriminate.
  - intros Hne; elim Hne; reflexivity.
  - intros Hf; discriminate.
Qed.

Lemma new_bound_is_step : forall browser_info host w,
  CefFrameHostImpl_new_bound browser_info host = Some w ->
  exists is_main_frame parent_frame_id,
    step (OpSetRenderFrameHost host)
      (CefFrameHostImpl_new browser_info is_main_frame parent_frame_id) = Some w.
Proof.
  intros browser_info host w. unfold CefFrameHostImpl_new_bound.
  destruct (if match GetParent host with Some _ => false | None => true end
            then Some kInvalidFrameId else MakeFrameId (GetParent host)) as [p|];
    [|discriminate].
  intros H. eexists; exists p. exact H.
Qed.

Lemma reachable_binding_invariant : forall w, reachable w -> binding_invariant w.
Proof.
  induction 1 as [bi m p|bi host w Hnew|op w w' Hreach IH Hstep].
  - apply new_binding_invariant.
  - destruct (new_bound_is_step _ _ Hnew) as (m & p & Hstep).
    eapply step_binding_invariant; [exact Hstep|apply new_binding_invariant].
  - eapply step_binding_invariant; eassumption.
Qed.

Lemma reachable_from : forall ops w w',
  reachable w -> run ops w = Some w' -> reachable w'.
Proof.
  induction ops as [|op rest IH]; intros w w' Hreach Hrun; simpl in Hrun.
  - injection Hrun as <-; exact Hreach.
  - destruct (step op w) as [w1|] eqn:Hstep; [|discriminate].
    apply (IH w1 w'); [eapply reachable_step; eassumption|exact Hrun].
Qed.

(** X1.  In every reachable world a bound frame host means the handle is
    not detached and frame_id_ is the packed (process id, routing id) of
    that very host; and the queue holds actions only while a frame host is
    bound. *)
Theorem frame_host_binding :
  forall w : World,
    reachable w ->
    (forall h, render_frame_host_ (self w) = Some h ->
       browser_info_ (self w) <> None /\
       GetIdentifier (self w) =
         frame_util_MakeFrameId (GetProcess_GetID h) (GetRoutingID h)) /\
    (queued_actions_ (self w) <> [] -> render_frame_host_ (self w) <> None).
Proof.
  intros w Hreach. destruct (reachable_binding_invariant Hreach) as (Hh & Hq & _).
  split; assumption.
Qed.

(** X2.  In every reachable world the peer connection is bound only on an
    attached handle that has a frame host: binding a new host and Detach
    both release it, and it is bound again only by a dispatch or by
    FrameAttached. *)
Theorem peer_connection_binding :
  forall w : World,
    reachable w ->
    render_frame_ (self w) = true ->
    render_frame_host_ (self w) <> None /\ is_attached_ (self w) = true.
Proof.
  intros w Hreach. destruct (reachable_binding_invariant Hreach) as (_ & _ & Hr).
  exact Hr.
Qed.

Lemma run_keeps_is_attached : forall ops w w',
  run ops w = Some w' -> is_attached_ (self w) = true -> is_attached_ (self w') = true.
Proof.
  induction ops as [|op rest IH]; intros w w' Hrun Ha; simpl in Hrun.
  - injection Hrun as <-; exact Ha.
  - destruct (step op w) as [w1|] eqn:Hstep; [|discriminate].
    apply (IH _ _ Hrun). eapply step_keeps_is_attached; eassumption.
Qed.

(** X3.  Attachment is permanent: no call, not even SetRenderFrameHost with
    another host or Detach, makes an attached handle unattached again; so
    after attachment SendToRenderFrame never queues. *)
Theorem attachment_is_permanent :
  forall (w : World) (ops : list Op) (w' : World),
    is_attached_ (self w) = true ->
    run ops w = Some w' ->
    is_attached_ (self w') = true /\
    forall t action,
      queued_actions_ (self (SendToRenderFrame t action w')) = queued_actions_ (self w').
Proof.
  intros w ops w' Ha Hrun.
  assert (Ha' : is_attached_ (self w') = true)
    by (eapply run_keeps_is_attached; eassumption).
  split; [exact Ha'|].
  intros t action. destruct (SendToRenderFrame_queue_step t action w')
    as [(_ & [Hq|(Hf & _)])|Hq].
  - exact Hq.
  - rewrite Ha' in Hf; discriminate.
  - unfold SendToRenderFrame in *. destruct t; simpl in *; [|reflexivity].
    destruct (render_frame_host_ (self w')); [|reflexivity].
    rewrite Ha' in *; simpl in *.
    destruct (render_frame_ (GetRenderFrame (self w'))); simpl in *;
      rewrite GetRenderFrame_keeps_queue; reflexivity.
Qed.

Lemma step_delivery_invariant : forall op w w',
  step op w = Some w' -> delivery_invariant w -> delivery_invariant w'.
Proof.
  intros op w w' Hstep Hinv.
  analyse_step Hstep FrameAttached_closed_form;
    unfold delivery_invariant, peer_untouched in *; simpl in *;
    intros Ha'; try discriminate; specialize (Hinv eq_refl);
    rewrite ?app_nil_r; try exact Hinv;
    apply Forall_app; split; try exact Hinv; repeat constructor.
Qed.

Lemma reachable_delivery_invariant : forall w, reachable w -> delivery_invariant w.
Proof.
  induction 1 as [bi m p|bi host w Hnew|op w w' Hreach IH Hstep].
  - intros _; constructor.
  - destruct (new_bound_is_step _ _ Hnew) as (m & p & Hstep).
    eapply step_delivery_invariant; [exact Hstep|]. intros _; constructor.
  - eapply step_delivery_invariant; eassumption.
Qed.

(** X4.  Nothing reaches the peer before attachment: in every reachable
    world whose handle is not attached the trace holds no call on the
    renderer-side frame. *)
Theorem no_delivery_before_attachment :
  forall (w : World) (action : RenderFrameAction),
    reachable w ->
    is_attached_ (self w) = false ->
    ~ In (ToRenderFrame action) (trace w).
Proof.
  intros w action Hreach Ha Hin.
  pose proof (reachable_delivery_invariant Hreach Ha) as Hpeer.
  unfold peer_untouched in Hpeer. rewrite Forall_forall in Hpeer.
  specialize (Hpeer _ Hin). discriminate.
Qed.

Lemma step_never_bound : forall op w,
  never_bound w -> is_SetRenderFrameHost op = false ->
  exists w', step op w = Some w' /\ never_bound w'.
Proof.
  intros op [[m i b fo u n p q rf rfh a] tr tasks] (Hh & Hi & Hq & Hr & Hp) Hop.
  simpl in Hh, Hi, Hq, Hr; subst rfh i q rf.
  destruct (step op (mkWorld (mkFrameHost m kInvalidFrameId b fo u n p [] false None a)
                       tr tasks)) as [w'|] eqn:Hstep.
  - exists w'; split; [reflexivity|].
    destruct op; try discriminate Hop; simpl in Hstep; unfold FrameAttached in Hstep;
      unfold_members Hstep; simpl in Hstep; break_step Hstep; try discriminate;
      injection Hstep as <-; unfold never_bound, peer_untouched in *; simpl in *;
      repeat split; auto;
      apply Forall_app; split; try exact Hp; repeat constructor.
  - destruct op; try discriminate Hop; simpl in Hstep; try discriminate.
Qed.

Lemma run_never_bound : forall ops w,
  never_bound w -> forallb (fun op => negb (is_SetRenderFrameHost op)) ops = true ->
  exists w', run ops w = Some w' /\ never_bound w'.
Proof.
  induction ops as [|op rest IH]; intros w Hnb Hops; simpl in *.
  - exists w; split; [reflexivity|exact Hnb].
  - apply andb_true_iff in Hops. destruct Hops as (Hop & Hrest).
    apply negb_true_iff in Hop.
    destruct (step_never_bound op Hnb Hop) as (w1 & Hstep & Hnb1).
    rewrite Hstep. apply IH; assumption.
Qed.

Lemma new_never_bound : forall browser_info is_main_frame parent_frame_id,
  never_bound (CefFrameHostImpl_new browser_info is_main_frame parent_frame_id).
Proof. intros; repeat split; constructor. Qed.

(** X5.  A handle made by the pre-binding constructor stays a placeholder
    until SetRenderFrameHost is called: every other sequence of calls runs to
    its end, and after it there is still no frame host, GetIdentifier is
    still kInvalidFrameId, the queue is empty (actions were dropped, not
    kept for a later host) and no call has reached the peer. *)
Theorem placeholder_stays_inert :
  forall (browser_info : option CefBrowserInfo) (is_main_frame : bool)
         (parent_frame_id : Z) (ops : list Op),
    forallb (fun op => negb (is_SetRenderFrameHost op)) ops = true ->
    exists w',
      run ops (CefFrameHostImpl_new browser_info is_main_frame parent_frame_id) = Some w' /\
      render_frame_host_ (self w') = None /\
      GetIdentifier (self w') = kInvalidFrameId /\
      queued_actions_ (self w') = [] /\
      (forall action, ~ In (ToRenderFrame action) (trace w')).
Proof.
  intros browser_info is_main_frame parent_frame_id ops Hops.
  destruct (run_never_bound ops (new_never_bound browser_info is_main_frame parent_frame_id) Hops)
    as (w' & Hrun & Hh & Hi & Hq & _ & Hp).
  exists w'. repeat split; try assumption.
  intros action Hin. unfold peer_untouched in Hp. rewrite Forall_forall in Hp.
  specialize (Hp _ Hin). discriminate.
Qed.

(** X6.  A sub-frame handle that has had no frame host cannot navigate by
    url: its frame id is kInvalidFrameId, below the main-frame sentinel, so
    LoadURLWithExtras (and LoadURL) leaves the world as it is. *)
Theorem unbound_subframe_LoadURL_rejected :
  forall (browser_info : option CefBrowserInfo) (parent_frame_id : Z) (ops : list Op)
         (w' : World) (t : ThreadId) (url : string) (referrer : Referrer)
         (transition : Z) (headers : string),
    forallb (fun op => negb (is_SetRenderFrameHost op)) ops = true ->
    run ops (CefFrameHostImpl_new browser_info false parent_frame_id) = Some w' ->
    LoadURLWithExtras t url referrer transition headers w' = w' /\
    LoadURL t url w' = w'.
Proof.
  intros browser_info parent_frame_id ops w' t url referrer transition headers Hops Hrun.
  destruct (run_never_bound ops (new_never_bound browser_info false parent_frame_id) Hops)
    as (w1 & Hrun1 & _ & Hi & _).
  rewrite Hrun in Hrun1. injection Hrun1 as <-.
  pose proof (run_keeps_is_main_frame _ _ Hrun) as Hm. simpl in Hm.
  assert (Hid : GetFrameId (self w') = kInvalidFrameId)
    by (unfold GetFrameId; rewrite Hm; exact Hi).
  unfold LoadURL, LoadURLWithExtras. rewrite Hid. split; reflexivity.
Qed.

Lemma step_keeps_is_focused : forall op w w',
  step op w = Some w' -> is_SetFocused op = false ->
  is_focused_ (self w') = is_focused_ (self w).
Proof.
  intros op w w' Hstep Hop.
  analyse_step Hstep FrameAttached_closed_form; try discriminate Hop; reflexivity.
Qed.

(** X7.  The focus flag is written by SetFocused alone: IsFocused after
    SetFocused is the value given, and any calls among which there is no
    SetFocused (navigation with its OnSetFocus on the browser, binding,
    Detach) leave IsFocused as it was. *)
Theorem focus_written_by_SetFocused_only :
  forall (ops : list Op) (w w' : World) (focused : bool),
    forallb (fun op => negb (is_SetFocused op)) ops = true ->
    run ops (SetFocused focused w) = Some w' ->
    IsFocused (self w') = focused.
Proof.
  intros ops w w' focused. revert w' .
  assert (Hgen : forall ops v v',
            forallb (fun op => negb (is_SetFocused op)) ops = true ->
            run ops v = Some v' -> is_focused_ (self v') = is_focused_ (self v)).
  { clear. induction ops as [|op rest IH]; intros v v' Hops Hrun; simpl in *.
    - injection Hrun as <-; reflexivity.
    - apply andb_true_iff in Hops. destruct Hops as (Hop & Hrest).
      apply negb_true_iff in Hop.
      destruct (step op v) as [v1|] eqn:Hstep; [|discriminate].
      rewrite (IH _ _ Hrest Hrun). eapply step_keeps_is_focused; eassumption. }
  intros w' Hops Hrun. unfold IsFocused. rewrite (Hgen _ _ _ Hops Hrun). reflexivity.
Qed.

Lemma step_keeps_main_parent : forall op w w',
  step op w = Some w' -> is_main_frame_ (self w) = true ->
  parent_frame_id_ (self w') = parent_frame_id_ (self w).
Proof.
  intros op w w' Hstep Hm.
  analyse_step Hstep FrameAttached_closed_form; simpl in Hm; subst m; simpl in *;
    try discriminate; reflexivity.
Qed.

(** X8.  The parent of a main frame is fixed: on a handle constructed as
    the main frame no call changes parent_frame_id_ (RefreshAttributes
    re-derives it for other frames only), and GetParent answers no frame
    whatever the browser's frame table holds. *)
Theorem main_frame_has_no_parent :
  forall (Frame : Type) (GetFrame : CefBrowserHostBase -> Z -> option Frame)
         (ops : list Op) (w w' : World),
    is_main_frame_ (self w) = true ->
    run ops w = Some w' ->
    parent_frame_id_ (self w') = parent_frame_id_ (self w) /\
    CefFrame_GetParent GetFrame (self w') = None.
Proof.
  intros Frame GetFrame ops w w' Hm Hrun. split.
  - revert w w' Hm Hrun.
    induction ops as [|op rest IH]; intros w w' Hm Hrun; simpl in Hrun.
    + injection Hrun as <-; reflexivity.
    + destruct (step op w) as [w1|] eqn:Hstep; [|discriminate].
      assert (Hm1 : is_main_frame_ (self w1) = true)
        by (rewrite (step_keeps_is_main_frame _ _ Hstep); exact Hm).
      rewrite (IH _ _ Hm1 Hrun). eapply step_keeps_main_parent; eassumption.
  - unfold CefFrame_GetParent.
    rewrite (run_keeps_is_main_frame _ _ Hrun), Hm. reflexivity.
Qed.

End Reachable.

(** ** More on the dispatch core *)

(** On an attached handle with the remote bound, a run of calls is
    delivered at once and in order. *)
Lemma SendAllToRenderFrame_attached : forall actions w h,
  render_frame_host_ (self w) = Some h ->
  is_attached_ (self w) = true ->
  render_frame_ (self w) = true ->
  SendAllToRenderFrame actions w =
  mkWorld (self w) (trace w ++ map ToRenderFrame actions) (ui_tasks w).
Proof.
  induction actions as [|action rest IH];
    intros [[m i b fo u n p q rf rfh a] tr tasks] h Hh Ha Hr; simpl in *; subst.
  - rewrite app_nil_r; reflexivity.
  - unfold SendToRenderFrame; simpl. unfold Run, emit; simpl.
    rewrite (IH _ h) by reflexivity. simpl. rewrite <- app_assoc. reflexivity.
Qed.

(** X9.  Call order is delivery order across attachment: the actions
    already queued, the actions sent before FrameAttached and the actions
    sent after it reach the peer in exactly that order, each once, when the
    peer connection resolves. *)
Theorem delivery_order_across_attachment :
  forall (w : World) (h : RenderFrameHost) (before after : list RenderFrameAction),
    render_frame_host_ (self w) = Some h ->
    is_attached_ (self w) = false ->
    render_frame_ (GetRenderFrame (self w)) = true ->
    let final :=
      SendAllToRenderFrame after (FrameAttached (SendAllToRenderFrame before w)) in
    trace final =
      trace w ++ map ToRenderFrame (queued_actions_ (self w) ++ before ++ after) /\
    queued_actions_ (self final) = [].
Proof.
  intros w h before after Hh Ha Hr final. subst final.
  rewrite (SendAllToRenderFrame_unattached before _ Hh Ha).
  rewrite FrameAttached_first by (simpl; exact Ha).
  destruct w as [[m i b fo u n p q rf rfh a] tr tasks].
  simpl in Hh, Ha; subst rfh a.
  unfold GetRenderFrame in *; simpl in *.
  destruct rf; simpl in *;
    [|destruct (GetRemoteInterfaces h) eqn:E; simpl in *; [|discriminate Hr]];
    rewrite (SendAllToRenderFrame_attached after _ (h := h)) by reflexivity;
    simpl; rewrite <- app_assoc, <- map_app, <- app_assoc; split; reflexivity.
Qed.

Section Rebinding.
Context {helpers : Helpers}.

(** X10.  SetRenderFrameHost fails exactly when the handle has no browser
    info, as after Detach.  When it succeeds it keeps the queue and the
    attachment flag, makes no call, and releases the peer connection;
    actions queued under the old frame host are delivered through the new
    one at FrameAttached when it offers remote interfaces, and are dropped
    there when it does not. *)
Theorem rebinding_keeps_the_queue :
  forall (host : RenderFrameHost) (w : World),
    (browser_info_ (self w) = None -> SetRenderFrameHost host w = None) /\
    (browser_info_ (self w) <> None ->
     exists w',
       SetRenderFrameHost host w = Some w' /\
       queued_actions_ (self w') = queued_actions_ (self w) /\
       is_attached_ (self w') = is_attached_ (self w) /\
       render_frame_ (self w') = false /\
       render_frame_host_ (self w') = Some host /\
       trace w' = trace w /\
       (is_attached_ (self w) = false ->
        trace (FrameAttached w') =
          trace w ++ (if GetRemoteInterfaces host
                      then map ToRenderFrame (queued_actions_ (self w)) else []) /\
        queued_actions_ (self (FrameAttached w')) = [])).
Proof.
  intros host [[m i b fo u n p q rf rfh a] tr tasks]; simpl. split.
  - intros ->. reflexivity.
  - intros Hb. destruct b as [info|]; [|elim Hb; reflexivity].
    eexists; split; [reflexivity|]. simpl.
    do 5 (split; [reflexivity|]). intros ->.
    rewrite FrameAttached_first by reflexivity. simpl.
    unfold GetRenderFrame; simpl.
    destruct (GetRemoteInterfaces host); simpl; split; reflexivity.
Qed.

(** X11.  After SetRenderFrameHost on an attached handle the next action
    is resolved against the new frame host, however the connection to the
    old one stood: it is delivered when the new host offers remote
    interfaces and dropped, with the world unchanged, when it does not. *)
Theorem rebinding_re_resolves_the_peer :
  forall (host : RenderFrameHost) (w w' : World) (action : RenderFrameAction),
    SetRenderFrameHost host w = Some w' ->
    is_attached_ (self w) = true ->
    (GetRemoteInterfaces host = true ->
       trace (SendToRenderFrame CEF_UIT action w') = trace w ++ [ToRenderFrame action] /\
       render_frame_ (self (SendToRenderFrame CEF_UIT action w')) = true) /\
    (GetRemoteInterfaces host = false ->
       SendToRenderFrame CEF_UIT action w' = w').
Proof.
  intros host [[m i b fo u n p q rf rfh a] tr tasks] w' action Hset Ha.
  simpl in Ha; subst a. unfold SetRenderFrameHost in Hset; simpl in Hset.
  destruct b as [info|]; [|discriminate]. injection Hset as <-.
  unfold SendToRenderFrame, GetRenderFrame; simpl.
  split; intros ->; simpl; [split|]; reflexivity.
Qed.

(** X12.  A queue drained without a peer connection is lost for good:
    FrameAttached then delivers nothing, empties the queue and still marks
    the handle attached; binding a frame host that does offer remote
    interfaces afterwards delivers the next action only, none of the lost
    ones. *)
Theorem failed_drain_is_not_replayed :
  forall (w : World) (host : RenderFrameHost) (w' : World) (action : RenderFrameAction),
    is_attached_ (self w) = false ->
    render_frame_ (GetRenderFrame (self w)) = false ->
    SetRenderFrameHost host (FrameAttached w) = Some w' ->
    GetRemoteInterfaces host = true ->
    trace (FrameAttached w) = trace w /\
    queued_actions_ (self (FrameAttached w)) = [] /\
    is_attached_ (self (FrameAttached w)) = true /\
    trace (SendToRenderFrame CEF_UIT action w') = trace w ++ [ToRenderFrame action].
Proof.
  intros w host w' action Ha Hr Hset Hri.
  rewrite FrameAttached_first in * by exact Ha.
  rewrite Hr in *. rewrite app_nil_r in *.
  destruct w as [[m i b fo u n p q rf rfh a] tr tasks].
  simpl in Ha; subst a.
  unfold SetRenderFrameHost, GetRenderFrame in *; simpl in *.
  destruct rf; simpl in *; [discriminate Hr|].
  destruct rfh as [h0|]; simpl in *;
    [destruct (GetRemoteInterfaces h0) eqn:E; simpl in *; [discriminate Hr|]|];
    (destruct b as [info|]; [|discriminate Hset]); injection Hset as <-;
    unfold SendToRenderFrame, GetRenderFrame; simpl; rewrite Hri; simpl;
    (split; [reflexivity|]); (split; [reflexivity|]); split; reflexivity.
Qed.

End Rebinding.

(** ** Calls off the UI thread *)

(** X13.  A call made off the UI thread does what the same call on the UI
    thread does, once the UI thread has run the task it posted: this holds
    of SendToRenderFrame, of SendJavaScript and SendProcessMessage built on
    it, and of ExecuteJavaScriptWithUserGestureForTests.  Until the task
    runs, the handle and the trace are untouched. *)
Theorem posted_call_equals_direct_call :
  forall (w : World) (action : RenderFrameAction) (jsCode scriptUrl : string)
         (startLine : Z) (target : CefProcessId) (message : option CefProcessMessage)
         (javascript : string),
    ui_tasks w = [] ->
    RunPostedTask (SendToRenderFrame CEF_NOT_UIT action w) =
      SendToRenderFrame CEF_UIT action w /\
    RunPostedTask (SendJavaScript CEF_NOT_UIT jsCode scriptUrl startLine w) =
      SendJavaScript CEF_UIT jsCode scriptUrl startLine w /\
    RunPostedTask (SendProcessMessage CEF_NOT_UIT target message w) =
      SendProcessMessage CEF_UIT target message w /\
    RunPostedTask (ExecuteJavaScriptWithUserGestureForTests CEF_NOT_UIT javascript w) =
      ExecuteJavaScriptWithUserGestureForTests CEF_UIT javascript w /\
    self (SendToRenderFrame CEF_NOT_UIT action w) = self w /\
    trace (SendToRenderFrame CEF_NOT_UIT action w) = trace w.
Proof.
  intros [s tr tasks] action jsCode scriptUrl startLine target message javascript Htk.
  simpl in Htk; subst tasks.
  split; [reflexivity|]. split; [|split; [|split; [reflexivity|split; reflexivity]]].
  - unfold SendJavaScript. destruct (String.eqb jsCode ""); reflexivity.
  - unfold SendProcessMessage. destruct message as [m|]; [|reflexivity].
    destruct (message_IsValid m); reflexivity.
Qed.

(** ** Script execution for tests *)

(** X14.  ExecuteJavaScriptWithUserGestureForTests goes to the frame host
    itself and not through the dispatch core: on the UI thread, with a frame
    host, the script is executed at once also on a handle that is not
    attached, where SendJavaScript only queues; the handle is left as it is.
    Without a frame host nothing happens. *)
Theorem user_gesture_script_bypasses_the_queue :
  forall (w : World) (javascript : string),
    (forall h, render_frame_host_ (self w) = Some h ->
       ExecuteJavaScriptWithUserGestureForTests CEF_UIT javascript w =
       emit (Host_ExecuteJavaScriptWithUserGestureForTests javascript) w) /\
    (render_frame_host_ (self w) = None ->
       ExecuteJavaScriptWithUserGestureForTests CEF_UIT javascript w = w) /\
    (forall h scriptUrl startLine,
       render_frame_host_ (self w) = Some h -> is_attached_ (self w) = false ->
       javascript <> "" ->
       trace (SendJavaScript CEF_UIT javascript scriptUrl startLine w) = trace w /\
       trace (ExecuteJavaScriptWithUserGestureForTests CEF_UIT javascript w) =
         trace w ++ [Host_ExecuteJavaScriptWithUserGestureForTests javascript]).
Proof.
  intros w javascript.
  unfold ExecuteJavaScriptWithUserGestureForTests, GetRenderFrameHost; simpl.
  split; [|split].
  - intros h Hh; rewrite Hh; reflexivity.
  - intros Hh; rewrite Hh; reflexivity.
  - intros h scriptUrl startLine Hh Ha Hjs. rewrite Hh. split; [|reflexivity].
    unfold SendJavaScript.
    destruct (String.eqb_spec javascript "") as [E|_]; [contradiction|].
    rewrite (SendToRenderFrame_unattached _ _ Hh Ha). reflexivity.
Qed.

(** ** Messages to the renderer *)

(** X15.  SendProcessMessage never dispatches a null or invalid message:
    the world is left as it is, on any thread.  A valid message is handed
    to SendToRenderFrame, so on an attached handle with the remote bound it
    reaches the peer once. *)
Theorem SendProcessMessage_validates :
  forall (t : ThreadId) (target : CefProcessId) (w : World),
    SendProcessMessage t target None w = w /\
    (forall m, message_IsValid m = false ->
       SendProcessMessage t target (Some m) w = w) /\
    (forall m, message_IsValid m = true ->
       SendProcessMessage t target (Some m) w =
       SendToRenderFrame t (ActSendMessage m) w) /\
    (forall m h, message_IsValid m = true ->
       render_frame_host_ (self w) = Some h -> is_attached_ (self w) = true ->
       render_frame_ (self w) = true ->
       SendProcessMessage CEF_UIT target (Some m) w = emit (ToRenderFrame (ActSendMessage m)) w).
Proof.
  intros t target w. unfold SendProcessMessage.
  split; [reflexivity|]. split; [|split].
  - intros m Hv; rewrite Hv; reflexivity.
  - intros m Hv; rewrite Hv; reflexivity.
  - intros m h Hv Hh Ha Hr. rewrite Hv. simpl.
    destruct w as [[mf i b fo u n p q rf rfh a] tr tasks]; simpl in *; subst.
    reflexivity.
Qed.

(** ** Notifications from the renderer *)

(** X16.  DidFinishFrameLoad, SendMessage and UpdateDraggableRegions never
    write the handle or post a task, and never call the peer: each makes at
    most one call, on the browser, the client or the drag handler.  Without
    a live browser each leaves the whole world as it is. *)
Theorem inbound_notifications_keep_the_handle :
  forall (w : World) (validated_url : GURL) (http_status_code : Z) (name : string)
         (arguments : list string) (regions : option (list DraggableRegionEntry)),
    notifies_only w (DidFinishFrameLoad validated_url http_status_code w) /\
    notifies_only w (SendMessage name arguments w) /\
    notifies_only w (UpdateDraggableRegions regions w) /\
    (GetBrowser (self w) = None ->
       DidFinishFrameLoad validated_url http_status_code w = w /\
       SendMessage name arguments w = w /\
       UpdateDraggableRegions regions w = w).
Proof.
  intros w validated_url http_status_code name arguments regions.
  unfold DidFinishFrameLoad, SendMessage, UpdateDraggableRegions, GetBrowser.
  assert (Hsame : notifies_only w w).
  { split; [reflexivity|]. split; [reflexivity|]. exists []. rewrite app_nil_r.
    split; [reflexivity|]. split; [simpl; lia|constructor]. }
  assert (Hemit : forall e, is_ToRenderFrame e = false -> notifies_only w (emit e w)).
  { intros e He. split; [reflexivity|]. split; [reflexivity|]. exists [e].
    split; [reflexivity|]. split; [simpl; lia|]. constructor; [exact He|constructor]. }
  destruct (GetBrowserHostBase (self w)) as [b|].
  - split; [apply Hemit; reflexivity|].
    split; [destruct (GetClient b); [apply Hemit; reflexivity|exact Hsame]|].
    split; [|discriminate].
    destruct (negb _); [exact Hsame|apply Hemit; reflexivity].
  - split; [exact Hsame|]. split; [exact Hsame|]. split; [exact Hsame|].
    intros _; repeat split.
Qed.

(** X17.  UpdateDraggableRegions calls the drag handler only when the
    browser is live and its client has one.  It then passes the regions in
    the order received, each with its bounds and its draggable flag, and an
    empty list when no regions were given; with no client or no drag handler
    it does nothing. *)
Theorem UpdateDraggableRegions_forwards_regions :
  forall (w : World) (b : CefBrowserHostBase),
    GetBrowserHostBase (self w) = Some b ->
    (forall client, GetClient b = Some client -> GetDragHandler client = true ->
       (forall regions,
          exists sent,
            UpdateDraggableRegions (Some regions) w =
              emit (DragHandler_OnDraggableRegionsChanged sent) w /\
            map region_bounds sent = map bounds regions /\
            map region_draggable sent = map draggable regions) /\
       UpdateDraggableRegions None w = emit (DragHandler_OnDraggableRegionsChanged []) w) /\
    (forall regions, GetClient b = None -> UpdateDraggableRegions regions w = w) /\
    (forall regions client, GetClient b = Some client -> GetDragHandler client = false ->
       UpdateDraggableRegions regions w = w).
Proof.
  intros w b Hb. unfold UpdateDraggableRegions. rewrite Hb. split; [|split].
  - intros client Hc Hd; rewrite Hc, Hd; simpl. split; [|reflexivity].
    intros regions. eexists. split; [reflexivity|].
    rewrite !map_map. simpl. split; reflexivity.
  - intros regions Hc; rewrite Hc; reflexivity.
  - intros regions client Hc Hd; rewrite Hc, Hd; reflexivity.
Qed.

(** ** Navigation requests *)

Lemma SendToRenderFrame_keeps_browser : forall t action w,
  GetBrowserHostBase (self (SendToRenderFrame t action w)) = GetBrowserHostBase (self w).
Proof.
  intros t action [[m i b fo u n p q rf rfh a] tr tasks].
  unfold SendToRenderFrame, GetRenderFrame, GetBrowserHostBase; simpl.
  destruct t; simpl; [|reflexivity].
  destruct rfh as [h|]; [|reflexivity].
  destruct a; simpl; [|reflexivity].
  destruct rf; simpl; [reflexivity|].
  destruct (GetRemoteInterfaces h); reflexivity.
Qed.

Section Requests.
Context {helpers : Helpers}.

(** X18.  LoadRequest does nothing at all when FixupGURL refuses the url.
    When FixupGURL accepts it, the request with the fixed url is handed to
    SendToRenderFrame, and the browser, when live, is told of the focus
    change afterwards whether the request was delivered, queued or dropped:
    on a handle with no frame host the only call made is OnSetFocus. *)
Theorem LoadRequest_focus_follows_fixup :
  forall (t : ThreadId) (params : RequestParams) (w : World),
    (forall left, url_util_FixupGURL (params_url params) = (false, left) ->
       LoadRequest t params w = w) /\
    (forall fixed, url_util_FixupGURL (params_url params) = (true, fixed) ->
       let request :=
         ActLoadRequest
           (mkRequestParams fixed (params_referrer params) (params_headers params)) in
       (IsValid (self w) = true ->
          LoadRequest t params w =
          emit (Browser_OnSetFocus FOCUS_SOURCE_NAVIGATION) (SendToRenderFrame t request w)) /\
       (IsValid (self w) = false ->
          LoadRequest t params w = SendToRenderFrame t request w) /\
       (IsValid (self w) = true -> render_frame_host_ (self w) = None ->
          LoadRequest CEF_UIT params w =
          emit (Browser_OnSetFocus FOCUS_SOURCE_NAVIGATION) w)).
Proof.
  intros t params w. unfold LoadRequest. split.
  - intros left Hfix; rewrite Hfix; reflexivity.
  - intros fixed Hfix. cbv zeta. rewrite Hfix. simpl.
    unfold IsValid. split; [|split].
    + intros Hv. rewrite SendToRenderFrame_keeps_browser.
      destruct (GetBrowserHostBase (self w)); [reflexivity|discriminate].
    + intros Hv. rewrite SendToRenderFrame_keeps_browser.
      destruct (GetBrowserHostBase (self w)); [discriminate|reflexivity].
    + intros Hv Hh. unfold SendToRenderFrame; simpl. rewrite Hh.
      destruct (GetBrowserHostBase (self w)); [reflexivity|discriminate].
Qed.

(** ** Attributes *)

(** X19.  RefreshAttributes does nothing without a frame host, and fails
    only on a handle that is not the main frame whose host has no parent.
    Otherwise the url is the host's committed url; the name is the host's
    frame name when that is not empty, else the unique name of its frame
    tree node when there is one, else empty; the parent id is re-derived
    from the host's parent for a frame that is not the main frame and kept
    for the main frame.  Identifier, focus, queue, attachment, peer
    connection and trace are never touched. *)
Theorem RefreshAttributes_policy :
  forall (w : World),
    (render_frame_host_ (self w) = None -> RefreshAttributes w = Some w) /\
    (forall h, render_frame_host_ (self w) = Some h ->
       (RefreshAttributes w = None <->
        is_main_frame_ (self w) = false /\ GetParent h = None) /\
       forall w', RefreshAttributes w = Some w' ->
         GetURL (self w') = spec (GetLastCommittedURL h) /\
         (GetFrameName h <> "" -> GetName (self w') = GetFrameName h) /\
         (GetFrameName h = "" ->
            GetName (self w') =
            match FrameTreeNode_unique_name h with Some unique => unique | None => "" end) /\
         (is_main_frame_ (self w) = true ->
            parent_frame_id_ (self w') = parent_frame_id_ (self w)) /\
         (is_main_frame_ (self w) = false ->
            forall parent, GetParent h = Some parent ->
              parent_frame_id_ (self w') =
              frame_util_MakeFrameId (GetProcess_GetID parent) (GetRoutingID parent)) /\
         GetIdentifier (self w') = GetIdentifier (self w) /\
         IsFocused (self w') = IsFocused (self w) /\
         queued_actions_ (self w') = queued_actions_ (self w) /\
         is_attached_ (self w') = is_attached_ (self w) /\
         render_frame_ (self w') = render_frame_ (self w) /\
         render_frame_host_ (self w') = render_frame_host_ (self w) /\
         browser_info_ (self w') = browser_info_ (self w) /\
         trace w' = trace w /\ ui_tasks w' = ui_tasks w).
Proof.
  intros [[m i b fo u n p q rf rfh a] tr tasks]; unfold RefreshAttributes; simpl.
  split; [intros ->; reflexivity|].
  intros h ->. unfold MakeFrameId. split.
  - destruct m; simpl.
    + split; [discriminate|intros [Hf _]; discriminate].
    + destruct (GetParent h) as [parent|]; split; try discriminate; auto.
      intros [_ Hf]; discriminate.
  - intros w' Hw'.
    assert (Hname : forall nm, (if (GetFrameName h =? "")%string
                                then match FrameTreeNode_unique_name h with
                                     | Some unique_name => unique_name
                                     | None => GetFrameName h
                                     end
                                else GetFrameName h) = nm ->
              (GetFrameName h <> "" -> nm = GetFrameName h) /\
              (GetFrameName h = "" ->
                 nm = match FrameTreeNode_unique_name h with
                      | Some unique => unique | None => "" end)).
    { intros nm <-. destruct (String.eqb_spec (GetFrameName h) "") as [E|E].
      - split; [contradiction|]. intros _.
        destruct (FrameTreeNode_unique_name h); [reflexivity|exact E].
      - split; [reflexivity|contradiction]. }
    destruct m; simpl in Hw'.
    + injection Hw' as <-; simpl.
      destruct (Hname _ eq_refl) as (Hn1 & Hn2).
      split; [reflexivity|]. split; [exact Hn1|]. split; [exact Hn2|].
      split; [reflexivity|]. split; [discriminate|]. repeat split.
    + destruct (GetParent h) as [parent|] eqn:Hp; [|discriminate].
      injection Hw' as <-; simpl.
      destruct (Hname _ eq_refl) as (Hn1 & Hn2).
      split; [reflexivity|]. split; [exact Hn1|]. split; [exact Hn2|].
      split; [discriminate|].
      split; [intros _ parent0 Hp0; injection Hp0 as <-; reflexivity|].
      repeat split.
Qed.

(** ** Construction *)

(** X20.  The bound constructor fails exactly when given no browser info.
    Otherwise the handle is the main frame exactly when the host has no
    parent, starts focused exactly when it is the main frame, carries the
    packed id, the committed url and the frame name of the host, has
    kInvalidFrameId as parent id when it is the main frame and the packed id
    of the host's parent otherwise, and starts unattached with an empty
    queue and no call made.  The pre-binding constructor too starts focused
    exactly when it is the main frame. *)
Theorem constructors_establish :
  forall (browser_info : option CefBrowserInfo) (host : RenderFrameHost),
    (browser_info = None -> CefFrameHostImpl_new_bound browser_info host = None) /\
    (browser_info <> None ->
     exists w,
       CefFrameHostImpl_new_bound browser_info host = Some w /\
       (IsMain (self w) = true <-> GetParent host = None) /\
       IsFocused (self w) = IsMain (self w) /\
       GetIdentifier (self w) =
         frame_util_MakeFrameId (GetProcess_GetID host) (GetRoutingID host) /\
       GetURL (self w) = spec (GetLastCommittedURL host) /\
       GetName (self w) = GetFrameName host /\
       (GetParent host = None -> parent_frame_id_ (self w) = kInvalidFrameId) /\
       (forall parent, GetParent host = Some parent ->
          parent_frame_id_ (self w) =
          frame_util_MakeFrameId (GetProcess_GetID parent) (GetRoutingID parent)) /\
       render_frame_host_ (self w) = Some host /\
       is_attached_ (self w) = false /\
       queued_actions_ (self w) = [] /\
       trace w = [] /\ ui_tasks w = []) /\
    (forall is_main_frame parent_frame_id,
       IsFocused (self (CefFrameHostImpl_new browser_info is_main_frame parent_frame_id)) =
       is_main_frame).
Proof.
  intros browser_info host. unfold CefFrameHostImpl_new_bound, MakeFrameId.
  split; [|split; [|reflexivity]].
  - intros ->. destruct (GetParent host); reflexivity.
  - intros Hb. destruct browser_info as [info|]; [|elim Hb; reflexivity].
    destruct (GetParent host) as [parent|] eqn:Hp; simpl.
    + eexists; split; [reflexivity|]. simpl.
      split; [split; discriminate|].
      do 4 (split; [reflexivity|]). split; [discriminate|].
      split; [intros parent0 Hp0; injection Hp0 as <-; reflexivity|].
      repeat split.
    + eexists; split; [reflexivity|]. simpl.
      split; [split; reflexivity|].
      do 4 (split; [reflexivity|]). split; [reflexivity|].
      split; [discriminate|]. repeat split.
Qed.

(** X21.  A detached handle has no browser and no parent, whatever is
    called on it afterwards and whatever the browser's frame table holds. *)
Theorem detached_handle_has_no_browser :
  forall (Frame : Type) (GetFrame : CefBrowserHostBase -> Z -> option Frame)
         (w : World) (ops : list Op) (w' : World),
    run ops (Detach w) = Some w' ->
    GetBrowser (self w') = None /\
    CefFrame_GetParent GetFrame (self w') = None.
Proof.
  intros Frame GetFrame w ops w' Hrun.
  pose proof (run_detached ops (Detach_detached w)) as H.
  rewrite Hrun in H. destruct H as ((Hb & _) & _).
  unfold GetBrowser, CefFrame_GetParent, GetBrowserHostBase. rewrite Hb.
  split; [reflexivity|].
  destruct (is_main_frame_ (self w') || _); reflexivity.
Qed.

End Requests.

(** ** The further properties on the examples *)

Lemma bound_child_reachable :
  reachable (helpers := Examples.example_helpers) Examples.bound_child.
Proof.
  apply (reachable_new_bound (helpers := Examples.example_helpers)
           (Some Examples.live_info) Examples.child_host). reflexivity.
Qed.

Lemma queued_child_reachable :
  reachable (helpers := Examples.example_helpers) Examples.queued_child.
Proof.
  apply (reachable_from (helpers := Examples.example_helpers)
           (map (OpSendToRenderFrame CEF_UIT) Examples.three_actions)
           bound_child_reachable).
  reflexivity.
Qed.

Lemma attached_child_reachable :
  reachable (helpers := Examples.example_helpers) MoreExamples.attached_child.
Proof.
  apply (reachable_from (helpers := Examples.example_helpers) [OpFrameAttached]
           bound_child_reachable).
  reflexivity.
Qed.

Lemma frame_host_binding_witness :
  reachable (helpers := Examples.example_helpers) Examples.queued_child /\
  render_frame_host_ (self Examples.queued_child) = Some Examples.child_host /\
  browser_info_ (self Examples.queued_child) <> None /\
  GetIdentifier (self Examples.queued_child) = 30064771074.
Proof.
  destruct (@frame_host_binding Examples.example_helpers Examples.queued_child
              queued_child_reachable) as (H & _).
  destruct (H Examples.child_host eq_refl) as (Hb & Hi).
  split; [exact queued_child_reachable|]. split; [reflexivity|].
  split; [exact Hb|exact Hi].
Defined.

Lemma peer_connection_binding_witness :
  reachable (helpers := Examples.example_helpers) MoreExamples.attached_child /\
  render_frame_ (self MoreExamples.attached_child) = true /\
  render_frame_host_ (self MoreExamples.attached_child) <> None /\
  is_attached_ (self MoreExamples.attached_child) = true.
Proof.
  split; [exact attached_child_reachable|]. split; [reflexivity|].
  exact (@peer_connection_binding Examples.example_helpers MoreExamples.attached_child
           attached_child_reachable eq_refl).
Defined.

Lemma attachment_is_permanent_witness :
  is_attached_ (self MoreExamples.attached_child) = true /\
  exists w',
    run (helpers := Examples.example_helpers)
      [OpSetRenderFrameHost Examples.oop_child_host; OpDetach]
      MoreExamples.attached_child = Some w' /\
    is_attached_ (self w') = true.
Proof.
  split; [reflexivity|]. eexists. split; [reflexivity|].
  exact (proj1 (@attachment_is_permanent Examples.example_helpers
                  MoreExamples.attached_child
                  [OpSetRenderFrameHost Examples.oop_child_host; OpDetach] _
                  eq_refl eq_refl)).
Defined.

Lemma no_delivery_before_attachment_witness :
  reachable (helpers := Examples.example_helpers) Examples.queued_child /\
  is_attached_ (self Examples.queued_child) = false /\
  ~ In (ToRenderFrame (ActSendCommand "Copy")) (trace Examples.queued_child).
Proof.
  split; [exact queued_child_reachable|]. split; [reflexivity|].
  exact (@no_delivery_before_attachment Examples.example_helpers Examples.queued_child
           (ActSendCommand "Copy") queued_child_reachable eq_refl).
Defined.

Lemma placeholder_stays_inert_witness :
  forallb (fun op => negb (is_SetRenderFrameHost op)) MoreExamples.calls_without_binding = true /\
  exists w',
    run (helpers := Examples.example_helpers) MoreExamples.calls_without_binding
      MoreExamples.child_placeholder = Some w' /\
    render_frame_host_ (self w') = None /\
    GetIdentifier (self w') = kInvalidFrameId /\
    queued_actions_ (self w') = [].
Proof.
  split; [reflexivity|].
  destruct (@placeholder_stays_inert Examples.example_helpers (Some Examples.live_info)
              false 30064771073 MoreExamples.calls_without_binding eq_refl)
    as (w' & Hrun & Hh & Hi & Hq & _).
  exists w'. split; [exact Hrun|]. split; [exact Hh|]. split; [exact Hi|exact Hq].
Defined.

Lemma unbound_subframe_LoadURL_rejected_witness :
  forallb (fun op => negb (is_SetRenderFrameHost op)) [OpFrameAttached] = true /\
  run (helpers := Examples.example_helpers) [OpFrameAttached] MoreExamples.child_placeholder =
    Some (FrameAttached MoreExamples.child_placeholder) /\
  LoadURL (helpers := Examples.example_helpers) CEF_UIT "https://example.com"
    (FrameAttached MoreExamples.child_placeholder) =
  FrameAttached MoreExamples.child_placeholder.
Proof.
  split; [reflexivity|]. split; [reflexivity|].
  exact (proj2 (@unbound_subframe_LoadURL_rejected Examples.example_helpers
                  (Some Examples.live_info) 30064771073 [OpFrameAttached]
                  (FrameAttached MoreExamples.child_placeholder) CEF_UIT
                  "https://example.com" Referrer_default kPageTransitionExplicit ""
                  eq_refl eq_refl)).
Defined.

Lemma focus_written_by_SetFocused_only_witness :
  forallb (fun op => negb (is_SetFocused op)) MoreExamples.calls_without_focus = true /\
  exists w',
    run (helpers := Examples.example_helpers) MoreExamples.calls_without_focus
      (SetFocused true Examples.bound_child) = Some w' /\
    IsFocused (self w') = true.
Proof.
  split; [reflexivity|]. eexists. split; [reflexivity|].
  exact (@focus_written_by_SetFocused_only Examples.example_helpers
           MoreExamples.calls_without_focus Examples.bound_child _ true eq_refl eq_refl).
Defined.

Lemma main_frame_has_no_parent_witness :
  is_main_frame_ (self Examples.bound_main) = true /\
  exists w',
    run (helpers := Examples.example_helpers)
      [OpRefreshAttributes; OpSetRenderFrameHost Examples.child_host; OpRefreshAttributes]
      Examples.bound_main = Some w' /\
    parent_frame_id_ (self w') = kInvalidFrameId /\
    CefFrame_GetParent (fun _ id => Some id) (self w') = None.
Proof.
  split; [reflexivity|]. eexists. split; [reflexivity|].
  exact (@main_frame_has_no_parent Examples.example_helpers Z (fun _ id => Some id)
           [OpRefreshAttributes; OpSetRenderFrameHost Examples.child_host; OpRefreshAttributes]
           Examples.bound_main _ eq_refl eq_refl).
Defined.

Lemma delivery_order_across_attachment_witness :
  render_frame_host_ (self Examples.queued_child) = Some Examples.child_host /\
  is_attached_ (self Examples.queued_child) = false /\
  render_frame_ (GetRenderFrame (self Examples.queued_child)) = true /\
  trace (SendAllToRenderFrame [ActSendCommand "Redo"]
           (FrameAttached
              (SendAllToRenderFrame [ActSendCommand "Undo"] Examples.queued_child))) =
  map ToRenderFrame
    (Examples.three_actions ++ [ActSendCommand "Undo"] ++ [ActSendCommand "Redo"]).
Proof.
  split; [reflexivity|]. split; [reflexivity|]. split; [reflexivity|].
  exact (proj1 (@delivery_order_across_attachment Examples.queued_child Examples.child_host
                  [ActSendCommand "Undo"] [ActSendCommand "Redo"]
                  eq_refl eq_refl eq_refl)).
Defined.

Lemma rebinding_keeps_the_queue_witness :
  browser_info_ (self Examples.queued_child) <> None /\
  SetRenderFrameHost (helpers := Examples.example_helpers) Examples.oop_child_host
    Examples.queued_child = Some MoreExamples.rebound_queued_child /\
  queued_actions_ (self MoreExamples.rebound_queued_child) = Examples.three_actions /\
  trace (FrameAttached MoreExamples.rebound_queued_child) =
    map ToRenderFrame Examples.three_actions.
Proof.
  assert (Hb : browser_info_ (self Examples.queued_child) <> None) by discriminate.
  destruct (@rebinding_keeps_the_queue Examples.example_helpers Examples.oop_child_host
              Examples.queued_child) as (_ & H).
  destruct (H Hb) as (w' & Hset & Hq & _ & _ & _ & _ & Hattach).
  assert (Hw' : w' = MoreExamples.rebound_queued_child).
  { assert (E : Some w' = Some MoreExamples.rebound_queued_child)
      by (rewrite <- Hset; reflexivity).
    injection E as E. exact E. }
  subst w'. split; [exact Hb|]. split; [exact Hset|]. split; [exact Hq|].
  exact (proj1 (Hattach eq_refl)).
Defined.

Lemma rebinding_re_resolves_the_peer_witness :
  SetRenderFrameHost (helpers := Examples.example_helpers) Examples.mute_host
    MoreExamples.attached_child = Some Examples.attached_mute /\
  is_attached_ (self MoreExamples.attached_child) = true /\
  GetRemoteInterfaces Examples.mute_host = false /\
  SendToRenderFrame CEF_UIT (ActSendCommand "Undo") Examples.attached_mute =
    Examples.attached_mute.
Proof.
  split; [reflexivity|]. split; [reflexivity|]. split; [reflexivity|].
  exact (proj2 (@rebinding_re_resolves_the_peer Examples.example_helpers Examples.mute_host
                  MoreExamples.attached_child Examples.attached_mute
                  (ActSendCommand "Undo") eq_refl eq_refl) eq_refl).
Defined.

Lemma failed_drain_is_not_replayed_witness :
  is_attached_ (self MoreExamples.queued_mute) = false /\
  render_frame_ (GetRenderFrame (self MoreExamples.queued_mute)) = false /\
  GetRemoteInterfaces Examples.oop_child_host = true /\
  exists w',
    SetRenderFrameHost (helpers := Examples.example_helpers) Examples.oop_child_host
      (FrameAttached MoreExamples.queued_mute) = Some w' /\
    trace (FrameAttached MoreExamples.queued_mute) = [] /\
    trace (SendToRenderFrame CEF_UIT (ActSendCommand "Undo") w') =
      [ToRenderFrame (ActSendCommand "Undo")].
Proof.
  split; [reflexivity|]. split; [reflexivity|]. split; [reflexivity|].
  eexists. split; [reflexivity|].
  destruct (@failed_drain_is_not_replayed Examples.example_helpers MoreExamples.queued_mute
              Examples.oop_child_host _ (ActSendCommand "Undo")
              eq_refl eq_refl eq_refl eq_refl) as (Ht & _ & _ & Hs).
  split; [exact Ht|exact Hs].
Defined.

Lemma posted_call_equals_direct_call_witness :
  ui_tasks Examples.bound_child = [] /\
  RunPostedTask (SendToRenderFrame CEF_NOT_UIT (ActSendCommand "Copy") Examples.bound_child) =
    SendToRenderFrame CEF_UIT (ActSendCommand "Copy") Examples.bound_child /\
  RunPostedTask (SendJavaScript CEF_NOT_UIT "f()" "about:blank" 0 Examples.bound_child) =
    SendJavaScript CEF_UIT "f()" "about:blank" 0 Examples.bound_child.
Proof.
  split; [reflexivity|].
  destruct (@posted_call_equals_direct_call Examples.bound_child (ActSendCommand "Copy")
              "f()" "about:blank" 0 PID_RENDERER None "g()" eq_refl) as (H1 & H2 & _).
  split; [exact H1|exact H2].
Defined.

Lemma user_gesture_script_bypasses_the_queue_witness :
  render_frame_host_ (self Examples.bound_child) = Some Examples.child_host /\
  is_attached_ (self Examples.bound_child) = false /\
  trace (SendJavaScript CEF_UIT "f()" "about:blank" 1 Examples.bound_child) = [] /\
  trace (ExecuteJavaScriptWithUserGestureForTests CEF_UIT "f()" Examples.bound_child) =
    [Host_ExecuteJavaScriptWithUserGestureForTests "f()"].
Proof.
  split; [reflexivity|]. split; [reflexivity|].
  destruct (user_gesture_script_bypasses_the_queue Examples.bound_child "f()")
    as (_ & _ & H).
  apply (H Examples.child_host "about:blank" 1 eq_refl eq_refl). discriminate.
Defined.

Lemma SendProcessMessage_validates_witness :
  message_IsValid MoreExamples.invalid_message = false /\
  SendProcessMessage CEF_UIT PID_RENDERER (Some MoreExamples.invalid_message)
    MoreExamples.attached_child = MoreExamples.attached_child /\
  message_IsValid MoreExamples.valid_message = true /\
  SendProcessMessage CEF_UIT PID_RENDERER (Some MoreExamples.valid_message)
    MoreExamples.attached_child =
  emit (ToRenderFrame (ActSendMessage MoreExamples.valid_message)) MoreExamples.attached_child.
Proof.
  destruct (SendProcessMessage_validates CEF_UIT PID_RENDERER MoreExamples.attached_child)
    as (_ & Hinvalid & _ & Hvalid).
  split; [reflexivity|].
  split; [exact (Hinvalid MoreExamples.invalid_message eq_refl)|]. split; [reflexivity|].
  exact (Hvalid MoreExamples.valid_message Examples.child_host eq_refl eq_refl eq_refl eq_refl).
Defined.

Lemma inbound_notifications_keep_the_handle_witness :
  GetBrowser (self (Detach Examples.bound_child)) = None /\
  DidFinishFrameLoad (mkGURL "https://example.com/a") 200 (Detach Examples.bound_child) =
    Detach Examples.bound_child /\
  SendMessage "ping" ["1"] (Detach Examples.bound_child) = Detach Examples.bound_child /\
  UpdateDraggableRegions None (Detach Examples.bound_child) = Detach Examples.bound_child.
Proof.
  split; [reflexivity|].
  destruct (inbound_notifications_keep_the_handle (Detach Examples.bound_child)
              (mkGURL "https://example.com/a") 200 "ping" ["1"] None) as (_ & _ & _ & H).
  exact (H eq_refl).
Defined.

Lemma UpdateDraggableRegions_forwards_regions_witness :
  GetBrowserHostBase (self Examples.bound_child) =
    Some (mkBrowser (Some (mkCefClient true))) /\
  UpdateDraggableRegions (Some MoreExamples.two_regions) Examples.bound_child =
    emit (DragHandler_OnDraggableRegionsChanged
            [mkRegion (mkRect 0 0 100 20) true; mkRegion (mkRect 80 0 20 20) false])
      Examples.bound_child /\
  UpdateDraggableRegions None Examples.bound_child =
    emit (DragHandler_OnDraggableRegionsChanged []) Examples.bound_child.
Proof.
  split; [reflexivity|].
  destruct (@UpdateDraggableRegions_forwards_regions Examples.bound_child
              (mkBrowser (Some (mkCefClient true))) eq_refl) as (H & _).
  destruct (H (mkCefClient true) eq_refl eq_refl) as (Hsome & Hnone).
  split; [|exact Hnone].
  destruct (Hsome MoreExamples.two_regions) as (sent & Hsent & _). reflexivity.
Defined.

Lemma LoadRequest_focus_follows_fixup_witness :
  url_util_FixupGURL (Helpers := Examples.example_helpers) (mkGURL "") = (false, mkGURL "") /\
  LoadRequest (helpers := Examples.example_helpers) CEF_UIT
    (mkRequestParams (mkGURL "") None "") MoreExamples.attached_child =
    MoreExamples.attached_child /\
  url_util_FixupGURL (Helpers := Examples.example_helpers) (mkGURL "https://example.com") =
    (true, mkGURL "https://example.com") /\
  IsValid (self MoreExamples.child_placeholder) = true /\
  render_frame_host_ (self MoreExamples.child_placeholder) = None /\
  LoadRequest (helpers := Examples.example_helpers) CEF_UIT
    (mkRequestParams (mkGURL "https://example.com") None "") MoreExamples.child_placeholder =
    emit (Browser_OnSetFocus FOCUS_SOURCE_NAVIGATION) MoreExamples.child_placeholder.
Proof.
  split; [reflexivity|]. split.
  - destruct (@LoadRequest_focus_follows_fixup Examples.example_helpers CEF_UIT
                (mkRequestParams (mkGURL "") None "") MoreExamples.attached_child)
      as (H & _).
    exact (H _ eq_refl).
  - split; [reflexivity|]. split; [reflexivity|]. split; [reflexivity|].
    destruct (@LoadRequest_focus_follows_fixup Examples.example_helpers CEF_UIT
                (mkRequestParams (mkGURL "https://example.com") None "")
                MoreExamples.child_placeholder) as (_ & H).
    destruct (H _ eq_refl) as (_ & _ & Hdrop).
    exact (Hdrop eq_refl eq_refl).
Defined.

Lemma RefreshAttributes_policy_witness :
  render_frame_host_ (self Examples.bound_main) = Some Examples.main_host /\
  GetFrameName Examples.main_host = "" /\
  exists w',
    RefreshAttributes (helpers := Examples.example_helpers) Examples.bound_main = Some w' /\
    GetName (self w') = "main" /\
    GetURL (self w') = "https://example.com/" /\
    GetIdentifier (self w') = GetIdentifier (self Examples.bound_main).
Proof.
  split; [reflexivity|]. split; [reflexivity|]. eexists. split; [reflexivity|].
  destruct (@RefreshAttributes_policy Examples.example_helpers Examples.bound_main)
    as (_ & H).
  destruct (H Examples.main_host eq_refl) as (_ & Hw).
  destruct (Hw _ eq_refl) as (Hu & _ & Hn & _ & _ & Hi & _).
  split; [exact (Hn eq_refl)|]. split; [exact Hu|exact Hi].
Defined.

Lemma constructors_establish_witness :
  Some Examples.live_info <> None /\
  CefFrameHostImpl_new_bound (helpers := Examples.example_helpers)
    (Some Examples.live_info) Examples.child_host = Some Examples.bound_child /\
  IsMain (self Examples.bound_child) = false /\
  IsFocused (self Examples.bound_child) = false /\
  parent_frame_id_ (self Examples.bound_child) = 30064771073.
Proof.
  assert (Hb : Some Examples.live_info <> None) by discriminate.
  destruct (@constructors_establish Examples.example_helpers (Some Examples.live_info)
              Examples.child_host) as (_ & H & _).
  destruct (H Hb) as (w & Hnew & _ & Hfocus & _ & _ & _ & _ & Hparent & _).
  assert (Hw : w = Examples.bound_child).
  { assert (E : Some w = Some Examples.bound_child) by (rewrite <- Hnew; reflexivity).
    injection E as E. exact E. }
  subst w. split; [exact Hb|]. split; [exact Hnew|]. split; [reflexivity|].
  split; [exact Hfocus|]. exact (Hparent Examples.main_host eq_refl).
Defined.

Lemma detached_handle_has_no_browser_witness :
  exists w',
    run (helpers := Examples.example_helpers) Examples.calls_after_detach
      (Detach Examples.bound_child) = Some w' /\
    GetBrowser (self w') = None /\
    CefFrame_GetParent (fun _ id => Some id) (self w') = None.
Proof.
  eexists. split; [reflexivity|].
  exact (@detached_handle_has_no_browser Examples.example_helpers Z (fun _ id => Some id)
           Examples.bound_child Examples.calls_after_detach _ eq_refl).
Defined.
